(** * bloggpt: the /generate-post pipeline of [app.py]

    A shallow embedding of the request handler [generate_post], the content
    generator [generate_content] and the news fetcher [get_recent_news],
    together with the parts of the Python runtime and of the two client
    libraries ([requests], [openai]) that the three functions rely on.

    Outbound calls are answered by an arbitrary, stateful environment; every
    call is recorded, in order, in a log that the theorems talk about. *)

From Stdlib Require Import List String Ascii NArith ZArith QArith Bool Lia.
Import ListNotations.

Local Open Scope list_scope.

(* ================================================================== *)
(** ** Python [str]: sequences of Unicode code points *)
(* ================================================================== *)

Module PyStr.

Definition codepoint := N.
Definition str := list codepoint.

(** Source literals are written as UTF-8 text and decoded once. *)
Fixpoint utf8_decode_from (s : string) (need : nat) (acc : N) : str :=
  match s with
  | EmptyString => []
  | String c rest =>
      let b := N_of_ascii c in
      match need with
      | O =>
          if (b <? 128)%N then b :: utf8_decode_from rest 0 0%N
          else if (b <? 224)%N then utf8_decode_from rest 1 (b - 192)%N
          else if (b <? 240)%N then utf8_decode_from rest 2 (b - 224)%N
          else utf8_decode_from rest 3 (b - 240)%N
      | S O => (acc * 64 + (b - 128))%N :: utf8_decode_from rest 0 0%N
      | S n => utf8_decode_from rest n (acc * 64 + (b - 128))%N
      end
  end.

Definition lit (s : string) : str := utf8_decode_from s 0 0%N.

Definition nl : str := [10%N].

Definition str_eqb (a b : str) : bool :=
  if list_eq_dec N.eq_dec a b then true else false.

(** [str.isspace] on one character, the test [str.strip()] applies:
    CPython's [_PyUnicode_IsWhitespace]. *)
Definition isspace (c : codepoint) : bool :=
  ((9 <=? c) && (c <=? 13) || (28 <=? c) && (c <=? 32)
   || (c =? 133) || (c =? 160) || (c =? 5760)
   || (8192 <=? c) && (c <=? 8202)
   || (c =? 8232) || (c =? 8233) || (c =? 8239) || (c =? 8287)
   || (c =? 12288))%N.

Fixpoint lstrip (s : str) : str :=
  match s with
  | [] => []
  | c :: r => if isspace c then lstrip r else s
  end.

Definition rstrip (s : str) : str := rev (lstrip (rev s)).

(** [s.strip()] *)
Definition strip (s : str) : str := rstrip (lstrip s).

(** Truth value of a [str]: [not s] holds exactly for the empty string. *)
Definition truthy (s : str) : bool :=
  match s with [] => false | _ :: _ => true end.

(** [sep.join(parts)] for parts that are all [str]. *)
Fixpoint join (sep : str) (parts : list str) : str :=
  match parts with
  | [] => []
  | [p] => p
  | p :: rest => p ++ sep ++ join sep rest
  end.

(** [needle in hay] *)
Fixpoint starts_with (p s : str) : bool :=
  match p, s with
  | [], _ => true
  | _ :: _, [] => false
  | a :: p', b :: s' => (a =? b)%N && starts_with p' s'
  end.

Fixpoint contains (hay needle : str) : bool :=
  starts_with needle hay
  || match hay with
     | [] => false
     | _ :: hay' => contains hay' needle
     end.

(** [str(n)] for a non-negative integer. *)
Fixpoint digits_from (fuel : nat) (n : N) (acc : str) : str :=
  match fuel with
  | O => acc
  | S fuel' =>
      let acc' := (48 + n mod 10)%N :: acc in
      if (n / 10 =? 0)%N then acc' else digits_from fuel' (n / 10)%N acc'
  end.

Definition str_of_N (n : N) : str := digits_from (S (N.to_nat (N.log2 n))) n [].

Definition str_of_Z (z : Z) : str :=
  if (z <? 0)%Z then 45%N :: str_of_N (Z.to_N (- z)) else str_of_N (Z.to_N z).

End PyStr.
Import PyStr.

(* ================================================================== *)
(** ** Decoded JSON values, as [response.json()] returns them *)
(* ================================================================== *)

#[local] Set Warnings "-register-all".

Inductive json : Type :=
| JNull
| JBool (b : bool)
| JInt (n : Z)
| JFloat (q : Q)
| JStr (s : str)
| JList (items : list json)
| JDict (entries : list (str * json)).

(** [type(v).__name__] *)
Definition type_name (v : json) : str :=
  match v with
  | JNull => lit "NoneType"
  | JBool _ => lit "bool"
  | JInt _ => lit "int"
  | JFloat _ => lit "float"
  | JStr _ => lit "str"
  | JList _ => lit "list"
  | JDict _ => lit "dict"
  end.

(** [bool(v)] *)
Definition json_truthy (v : json) : bool :=
  match v with
  | JNull => false
  | JBool b => b
  | JInt n => negb (n =? 0)%Z
  | JFloat q => negb (Qnum q =? 0)%Z
  | JStr s => truthy s
  | JList [] => false
  | JList (_ :: _) => true
  | JDict [] => false
  | JDict (_ :: _) => true
  end.

(** Lookup in a [dict] with [str] keys. *)
Fixpoint dict_lookup (k : str) (d : list (str * json)) : option json :=
  match d with
  | [] => None
  | (k', v) :: rest => if str_eqb k k' then Some v else dict_lookup k rest
  end.


(* ================================================================== *)
(** ** Exceptions *)
(* ================================================================== *)

(** The exception classes the program distinguishes.  [OtherException]
    stands for every other subclass of [Exception] ([TypeError],
    [AttributeError], [IndexError], ...); each carries its [str(e)]. *)
Inductive exn : Type :=
| RequestException (text : str)
| OpenAIError (text : str)
| HTTPException (status_code : Z) (detail : str)
| OtherException (text : str).

(** [str(e)] *)
Definition str_exn (e : exn) : str :=
  match e with
  | RequestException t => t
  | OpenAIError t => t
  | HTTPException c d => str_of_Z c ++ lit ": " ++ d
  | OtherException t => t
  end.

Inductive result (A : Type) : Type :=
| Ok (a : A)
| Raised (e : exn).
Arguments Ok {A} a.
Arguments Raised {A} e.

(* ================================================================== *)
(** ** The [requests] client *)
(* ================================================================== *)

Module Requests.

(** Arguments of [requests.get(url, params=..., timeout=...)]. *)
Record get_args : Type := mkGet {
  url : str;
  params : list (str * str);
  timeout : Z
}.

(** [body] is what [Response.json()] finds: a decoded value, or the text
    of the decoding error. *)
Record Response : Type := mkResponse {
  status_code : Z;
  reason : str;
  final_url : str;
  body : str + json
}.

(** [requests.get] either raises a [RequestException] (timeout,
    connection error, ...) or hands back a response. *)
Inductive outcome : Type :=
| Raises (cause : str)
| Returns (r : Response).

(** Text of the [HTTPError] of [Response.raise_for_status], if any. *)
Definition http_error_msg (r : Response) : option str :=
  let c := status_code r in
  if (400 <=? c)%Z && (c <? 500)%Z then
    Some (str_of_Z c ++ lit " Client Error: " ++ reason r
          ++ lit " for url: " ++ final_url r)
  else if (500 <=? c)%Z && (c <? 600)%Z then
    Some (str_of_Z c ++ lit " Server Error: " ++ reason r
          ++ lit " for url: " ++ final_url r)
  else None.

(** [Response.raise_for_status()]; [HTTPError] is a [RequestException]. *)
Definition raise_for_status (r : Response) : result unit :=
  match http_error_msg r with
  | Some msg => Raised (RequestException msg)
  | None => Ok tt
  end.

(** [Response.json()]; its [JSONDecodeError] is a [RequestException]. *)
Definition json_of (r : Response) : result json :=
  match body r with
  | inl text => Raised (RequestException text)
  | inr v => Ok v
  end.

End Requests.

(* ================================================================== *)
(** ** The [openai] client *)
(* ================================================================== *)

Module OpenAI.

Record prompt_message : Type := mkPrompt {
  role : str;
  content : str
}.

(** Keyword arguments of [openai.ChatCompletion.create]. *)
Record create_args : Type := mkCreate {
  model : str;
  messages : list prompt_message;
  max_tokens : Z;
  temperature : Q;
  stop : option (list str);
  presence_penalty : option Q;
  frequency_penalty : option Q
}.

Record reply_message : Type := mkReply {
  reply_content : option str
}.

Record choice : Type := mkChoice {
  message : reply_message
}.

Record completion : Type := mkCompletion {
  choices : list choice
}.

Inductive outcome : Type :=
| RaisesOpenAIError (text : str)
| RaisesOther (text : str)
| Returns (r : completion).

(** [r.choices[0].message.content.strip()] *)
Definition first_content_stripped (r : completion) : result str :=
  match choices r with
  | [] => Raised (OtherException (lit "list index out of range"))
  | c :: _ =>
      match reply_content (message c) with
      | None =>
          Raised (OtherException
                    (lit "'NoneType' object has no attribute 'strip'"))
      | Some text => Ok (strip text)
      end
  end.

End OpenAI.

(* ================================================================== *)
(** ** Computations: environment state, call log, exceptions *)
(* ================================================================== *)

Inductive outbound_call : Type :=
| NewsCall (args : Requests.get_args)
| GenerationCall (args : OpenAI.create_args).

Record state (World : Type) : Type := mkState {
  world : World;
  calls : list outbound_call
}.
Arguments mkState {World} world calls.
Arguments world {World} s.
Arguments calls {World} s.

Definition M (World A : Type) : Type := state World -> result A * state World.

Definition ret {W A} (a : A) : M W A := fun s => (Ok a, s).

Definition raise {W A} (e : exn) : M W A := fun s => (Raised e, s).

Definition bind {W A B} (c : M W A) (k : A -> M W B) : M W B :=
  fun s =>
    match c s with
    | (Ok a, s') => k a s'
    | (Raised e, s') => (Raised e, s')
    end.

Definition lift {W A} (r : result A) : M W A := fun s => (r, s).

(** [try: body  except ...: handler] *)
Definition try_except {W A} (body : M W A) (handler : exn -> M W A) : M W A :=
  fun s =>
    match body s with
    | (Ok a, s') => (Ok a, s')
    | (Raised e, s') => handler e s'
    end.

Declare Scope py_scope.
Delimit Scope py_scope with py.
Notation "x <- c ;; k" := (bind c (fun x => k))
  (at level 61, c at next level, right associativity) : py_scope.

Fixpoint mapM {W A B} (f : A -> M W B) (l : list A) : M W (list B) :=
  match l with
  | [] => ret []
  | a :: rest =>
      (b <- f a ;;
       bs <- mapM f rest ;;
       ret (b :: bs))%py
  end.

(* ================================================================== *)
(** ** Python operations on decoded JSON used by the news fetcher *)
(* ================================================================== *)

Definition no_attribute (v : json) (attr : string) : exn :=
  OtherException
    (lit "'" ++ type_name v ++ lit "' object has no attribute '"
     ++ lit attr ++ lit "'").

(** [v.get(key, default)]: only a [dict] has the method. *)
Definition json_get (v : json) (key : str) (default : json) : result json :=
  match v with
  | JDict d =>
      Ok (match dict_lookup key d with Some x => x | None => default end)
  | _ => Raised (no_attribute v "get")
  end.

(** The elements a [for] loop visits in [v[:5]].  A [dict] rejects the
    slice as a key ([TypeError] up to Python 3.11). *)
Definition slice5_items (v : json) : result (list json) :=
  match v with
  | JList l => Ok (firstn 5 l)
  | JStr s => Ok (map (fun c => JStr [c]) (firstn 5 s))
  | JDict _ => Raised (OtherException (lit "unhashable type: 'slice'"))
  | _ =>
      Raised (OtherException
                (lit "'" ++ type_name v ++ lit "' object is not subscriptable"))
  end.

(** [str.join] accepts only [str] items and names the first offender. *)
Fixpoint str_items (i : N) (items : list json) : result (list str) :=
  match items with
  | [] => Ok []
  | JStr s :: rest =>
      match str_items (i + 1)%N rest with
      | Ok l => Ok (s :: l)
      | Raised e => Raised e
      end
  | v :: _ =>
      Raised (OtherException
                (lit "sequence item " ++ str_of_N i
                 ++ lit ": expected str instance, " ++ type_name v
                 ++ lit " found"))
  end.

Definition json_join (sep : str) (items : list json) : result str :=
  match str_items 0%N items with
  | Ok l => Ok (join sep l)
  | Raised e => Raised e
  end.

(* ================================================================== *)
(** ** The service *)
(* ================================================================== *)

Record TopicRequest : Type := mkTopicRequest { topic : str }.

(** The [dict] returned by [generate_content], keys in insertion order. *)
Definition py_dict := list (str * str).

Definition no_news : str := lit "Свежих новостей не найдено.".

Definition news_error_prefix : str := lit "Ошибка при обращении к Currents API: ".
Definition openai_error_prefix : str := lit "Ошибка при обращении к OpenAI API: ".
Definition content_error_prefix : str := lit "Ошибка при генерации контента: ".
Definition empty_topic_detail : str := lit "Поле 'topic' не должно быть пустым".

Definition title_prompt (topic recent_news : str) : str :=
  lit "Придумайте привлекательный и точный заголовок для статьи на тему '"
  ++ topic
  ++ lit "', с учётом актуальных новостей:" ++ nl
  ++ recent_news
  ++ lit ". Заголовок должен быть интересным и ясно передавать суть темы. Не используй символы # и - в тексте, даже в заголовках.".

Definition meta_prompt (title : str) : str :=
  lit "Напишите мета-описание для статьи с заголовком: '"
  ++ title
  ++ lit "'. Оно должно быть полным, информативным и содержать основные ключевые слова. Не используй символы # и - в тексте, даже в заголовках.".

Definition content_requirements : list string :=
  [ "                Статья должна быть:"
  ; "                1. Информативной и логичной"
  ; "                2. Содержать не менее 500 символов"
  ; "                3. Иметь четкую структуру с подзаголовками"
  ; "                4. Включать анализ текущих трендов"
  ; "                5. Иметь вступление, основную часть и заключение"
  ; "                6. Включать примеры из актуальных новостей"
  ; "                7. Каждый абзац должен быть не менее 3-4 предложений"
  ; "                8. Текст должен быть легким для восприятия и содержательным"
  ; "                9. Не используй символ # в тексте, даже в заголовках."
  ]%string.

Definition content_prompt (topic recent_news : str) : str :=
  lit "Напишите подробную статью на тему '"
  ++ topic
  ++ lit "', используя последние новости:" ++ nl
  ++ recent_news
  ++ lit "." ++ nl
  ++ join nl (map lit content_requirements).

Definition user_message (text : str) : OpenAI.prompt_message :=
  OpenAI.mkPrompt (lit "user") text.

Definition title_args (topic recent_news : str) : OpenAI.create_args :=
  {| OpenAI.model := lit "gpt-4o-mini";
     OpenAI.messages := [user_message (title_prompt topic recent_news)];
     OpenAI.max_tokens := 20;
     OpenAI.temperature := 1;
     OpenAI.stop := Some [nl];
     OpenAI.presence_penalty := None;
     OpenAI.frequency_penalty := None |}.

Definition meta_args (title : str) : OpenAI.create_args :=
  {| OpenAI.model := lit "gpt-4o-mini";
     OpenAI.messages := [user_message (meta_prompt title)];
     OpenAI.max_tokens := 30;
     OpenAI.temperature := 1;
     OpenAI.stop := Some [lit "."];
     OpenAI.presence_penalty := None;
     OpenAI.frequency_penalty := None |}.

Definition content_args (topic recent_news : str) : OpenAI.create_args :=
  {| OpenAI.model := lit "gpt-4o-mini";
     OpenAI.messages := [user_message (content_prompt topic recent_news)];
     OpenAI.max_tokens := 1000;
     OpenAI.temperature := 1;
     OpenAI.stop := None;
     OpenAI.presence_penalty := Some (6 # 10);
     OpenAI.frequency_penalty := Some (6 # 10) |}.

Section Service.

(** The outside world: the two remote services, each free to answer a
    call in any way and to change between calls, and the news API key
    read from the process environment at start-up. *)
Variable World : Type.
Variable requests_get :
  Requests.get_args -> World -> Requests.outcome * World.
Variable ChatCompletion_create :
  OpenAI.create_args -> World -> OpenAI.outcome * World.
Variable currentsapi_key : str.

Local Open Scope py_scope.

(** [requests.get(url, params=params, timeout=10)] *)
Definition http_get (args : Requests.get_args) : M World Requests.Response :=
  fun s =>
    let (o, w') := requests_get args (world s) in
    let s' := mkState w' (calls s ++ [NewsCall args]) in
    match o with
    | Requests.Raises cause => (Raised (RequestException cause), s')
    | Requests.Returns r => (Ok r, s')
    end.

(** [openai.ChatCompletion.create(...)] *)
Definition chat_create (args : OpenAI.create_args) : M World OpenAI.completion :=
  fun s =>
    let (o, w') := ChatCompletion_create args (world s) in
    let s' := mkState w' (calls s ++ [GenerationCall args]) in
    match o with
    | OpenAI.RaisesOpenAIError text => (Raised (OpenAIError text), s')
    | OpenAI.RaisesOther text => (Raised (OtherException text), s')
    | OpenAI.Returns r => (Ok r, s')
    end.

Definition news_args (topic : str) : Requests.get_args :=
  {| Requests.url := lit "https://api.currentsapi.services/v1/latest-news";
     Requests.params :=
       [ (lit "language", lit "en")
       ; (lit "keywords", topic)
       ; (lit "apiKey", currentsapi_key) ];
     Requests.timeout := 10 |}.

Definition article_title (article : json) : result json :=
  json_get article (lit "title") (JStr []).

Definition get_recent_news (topic : str) : M World str :=
  try_except
    (response <- http_get (news_args topic) ;;
     _ <- lift (Requests.raise_for_status response) ;;
     payload <- lift (Requests.json_of response) ;;
     news_data <- lift (json_get payload (lit "news") (JList [])) ;;
     if negb (json_truthy news_data) then ret no_news
     else
       articles <- lift (slice5_items news_data) ;;
       titles <- mapM (fun article => lift (article_title article)) articles ;;
       lift (json_join nl titles))
    (fun e =>
       match e with
       | RequestException text =>
           raise (HTTPException 502 (news_error_prefix ++ text))
       | _ => raise e
       end).

Definition generate_content (topic : str) : M World py_dict :=
  recent_news <- get_recent_news topic ;;
  try_except
    (title_response <- chat_create (title_args topic recent_news) ;;
     title <- lift (OpenAI.first_content_stripped title_response) ;;
     meta_response <- chat_create (meta_args title) ;;
     meta_description <- lift (OpenAI.first_content_stripped meta_response) ;;
     content_response <- chat_create (content_args topic recent_news) ;;
     post_content <- lift (OpenAI.first_content_stripped content_response) ;;
     ret [ (lit "title", title)
         ; (lit "meta_description", meta_description)
         ; (lit "post_content", post_content) ])
    (fun e =>
       match e with
       | OpenAIError text =>
           raise (HTTPException 500 (openai_error_prefix ++ text))
       | _ => raise (HTTPException 500 (content_error_prefix ++ str_exn e))
       end).

Definition generate_post (topic_req : TopicRequest) : M World py_dict :=
  if negb (truthy (topic topic_req)) || negb (truthy (strip (topic topic_req)))
  then raise (HTTPException 400 empty_topic_detail)
  else generate_content (strip (topic topic_req)).

End Service.

(** Status line the web framework sends for the outcome of a handler: the
    code of an [HTTPException], 500 for any other exception. *)
Definition http_status {A} (r : result A) : Z :=
  match r with
  | Ok _ => 200
  | Raised (HTTPException c _) => c
  | Raised _ => 500
  end.

(* ================================================================== *)
(** ** Vocabulary of the specification *)
(* ================================================================== *)

(** [d.get(k)] on the returned [dict]. *)
Fixpoint dict_get (k : str) (d : py_dict) : option str :=
  match d with
  | [] => None
  | (k', v) :: rest => if str_eqb k k' then Some v else dict_get k rest
  end.

(** A news item is usable when it is an object whose [title], if there is
    one, is a string. *)
Definition article_ok (article : json) : bool :=
  match article with
  | JDict d =>
      match dict_lookup (lit "title") d with
      | None | Some (JStr _) => true
      | Some _ => false
      end
  | _ => false
  end.

(** The headline an item contributes: its title, or nothing. *)
Definition title_or_empty (article : json) : str :=
  match article with
  | JDict d =>
      match dict_lookup (lit "title") d with
      | Some (JStr t) => t
      | _ => []
      end
  | _ => []
  end.

(** The digest the specification describes for a list of news items. *)
Definition spec_headlines (items : list json) : str :=
  match items with
  | [] => no_news
  | _ :: _ => join nl (map title_or_empty (firstn 5 items))
  end.

(** The news-item list extracted from a decoded payload object. *)
Definition news_items (payload : list (str * json)) : option (list json) :=
  match dict_lookup (lit "news") payload with
  | None => Some []
  | Some (JList items) => Some items
  | Some _ => None
  end.

(** The cause text of a news call that fails in transport: an exception
    out of [requests.get], or a status [raise_for_status] rejects. *)
Definition transport_failure (o : Requests.outcome) : option str :=
  match o with
  | Requests.Raises cause => Some cause
  | Requests.Returns r => Requests.http_error_msg r
  end.

(** The exception, if any, with which one generation step fails: raised by
    the call itself or while reading the text out of its reply. *)
Definition generation_failure (o : OpenAI.outcome) : option exn :=
  match o with
  | OpenAI.RaisesOpenAIError text => Some (OpenAIError text)
  | OpenAI.RaisesOther text => Some (OtherException text)
  | OpenAI.Returns r =>
      match OpenAI.first_content_stripped r with
      | Ok _ => None
      | Raised e => Some e
      end
  end.

(** The detail with which the content generator reports a failed step. *)
Definition failure_detail (e : exn) : str :=
  match e with
  | OpenAIError text => openai_error_prefix ++ text
  | _ => content_error_prefix ++ str_exn e
  end.

(** A reply whose first choice carries the given text. *)
Definition reply_with (text : str) (others : list OpenAI.choice) : OpenAI.completion :=
  OpenAI.mkCompletion (OpenAI.mkChoice (OpenAI.mkReply (Some text)) :: others).

(** The prompts of the generation calls of a log, oldest first. *)
Definition generation_prompts (log : list outbound_call) : list str :=
  flat_map
    (fun c =>
       match c with
       | GenerationCall a => map OpenAI.content (OpenAI.messages a)
       | NewsCall _ => []
       end)
    log.

Definition generation_calls (log : list outbound_call) : list OpenAI.create_args :=
  flat_map
    (fun c =>
       match c with
       | GenerationCall a => [a]
       | NewsCall _ => []
       end)
    log.

(** The pure part of the news fetcher once the item list is sliced. *)
Fixpoint article_titles (articles : list json) : result (list json) :=
  match articles with
  | [] => Ok []
  | a :: rest =>
      match article_title a with
      | Ok t =>
          match article_titles rest with
          | Ok ts => Ok (t :: ts)
          | Raised e => Raised e
          end
      | Raised e => Raised e
      end
  end.

Definition digest_of_articles (articles : list json) : result str :=
  match article_titles articles with
  | Ok ts => json_join nl ts
  | Raised e => Raised e
  end.

(** The pure part of the news fetcher on a decoded payload. *)
Definition digest_of_payload (payload : json) : result str :=
  match json_get payload (lit "news") (JList []) with
  | Raised e => Raised e
  | Ok news_data =>
      if json_truthy news_data then
        match slice5_items news_data with
        | Ok articles => digest_of_articles articles
        | Raised e => Raised e
        end
      else Ok no_news
  end.

(* ================================================================== *)
(** ** Start-up: the two API keys *)
(* ================================================================== *)

(** [os.getenv(name)] on the process environment. *)
Fixpoint getenv (environ : list (str * str)) (name : str) : option str :=
  match environ with
  | [] => None
  | (k, v) :: rest => if str_eqb name k then Some v else getenv rest name
  end.

(** Truth value of what [os.getenv] returned: [None] and [""] are false. *)
Definition getenv_truthy (v : option str) : bool :=
  match v with
  | None => false
  | Some text => truthy text
  end.

Definition missing_keys_message : str :=
  lit "Необходимо установить переменные окружения OPENAI_API_KEY и CURRENTS_API_KEY".

(** The module-level key check; on success the pair is
    [(openai.api_key, currentsapi_key)].  [RuntimeError] is an
    [OtherException]. *)
Definition load_api_keys (environ : list (str * str))
  : result (option str * option str) :=
  let api_key := getenv environ (lit "OPENAI_API_KEY") in
  let currentsapi_key := getenv environ (lit "CURRENTS_API_KEY") in
  if negb (getenv_truthy api_key) || negb (getenv_truthy currentsapi_key)
  then Raised (OtherException missing_keys_message)
  else Ok (api_key, currentsapi_key).

(* ================================================================== *)
(** ** Sample environments *)
(* ================================================================== *)

Module Sample.

Definition article (title : string) : json :=
  JDict [ (lit "title", JStr (lit title)); (lit "url", JStr (lit "u")) ].

Definition untitled : json := JDict [ (lit "url", JStr (lit "u")) ].

Definition seven_articles : list json :=
  [ article "h1"; untitled; article "h3"; article "h4"; article "h5"
  ; article "h6"; article "h7" ].

Definition payload (items : list json) : json :=
  JDict [ (lit "status", JStr (lit "ok")); (lit "news", JList items) ].

Definition response (status : Z) (reason : string) (v : json) : Requests.Response :=
  {| Requests.status_code := status;
     Requests.reason := lit reason;
     Requests.final_url := lit "https://api.currentsapi.services/v1/latest-news";
     Requests.body := inr v |}.

(** The world is a counter of the calls answered so far. *)
Definition get_returning (r : Requests.Response)
  : Requests.get_args -> nat -> Requests.outcome * nat :=
  fun _ n => (Requests.Returns r, S n).

(** A news service that answers from the first response in world 0 and from
    the second in any other world, and moves to world 5 either way. *)
Definition get_switching (r0 r1 : Requests.Response)
  : Requests.get_args -> nat -> Requests.outcome * nat :=
  fun _ n =>
    (Requests.Returns (match n with O => r0 | S _ => r1 end), 5%nat).

Definition get_raising (cause : string)
  : Requests.get_args -> nat -> Requests.outcome * nat :=
  fun _ n => (Requests.Raises (lit cause), S n).

(** A generation service that tells the three calls apart by their
    output cap and answers each with the given text. *)
Definition create_replying (title meta post : string)
  : OpenAI.create_args -> nat -> OpenAI.outcome * nat :=
  fun args n =>
    let text :=
      if (OpenAI.max_tokens args =? 20)%Z then title
      else if (OpenAI.max_tokens args =? 30)%Z then meta
      else post in
    (OpenAI.Returns (reply_with (lit text) []), S n).

(** The same, with the meta-description call failing. *)
Definition create_meta_failing (title cause : string)
  : OpenAI.create_args -> nat -> OpenAI.outcome * nat :=
  fun args n =>
    if (OpenAI.max_tokens args =? 30)%Z
    then (OpenAI.RaisesOpenAIError (lit cause), S n)
    else (OpenAI.Returns (reply_with (lit title) []), S n).

(** A generation service whose call with the given output cap raises. *)
Definition create_failing_at (cap : Z) (cause : string)
  : OpenAI.create_args -> nat -> OpenAI.outcome * nat :=
  fun args n =>
    if (OpenAI.max_tokens args =? cap)%Z
    then (OpenAI.RaisesOpenAIError (lit cause), S n)
    else (OpenAI.Returns (reply_with (lit "Text") []), S n).

(** A generation service whose replies carry no choice at all. *)
Definition create_without_choices
  : OpenAI.create_args -> nat -> OpenAI.outcome * nat :=
  fun _ n => (OpenAI.Returns (OpenAI.mkCompletion []), S n).

Definition environ (openai_key currents_key : string) : list (str * str) :=
  [ (lit "PATH", lit "/usr/bin")
  ; (lit "OPENAI_API_KEY", lit openai_key)
  ; (lit "CURRENTS_API_KEY", lit currents_key) ].

Definition key : str := lit "k".

Definition start : state nat := mkState 0%nat [].

Definition good_get : Requests.get_args -> nat -> Requests.outcome * nat :=
  get_returning (response 200 "OK" (payload seven_articles)).

Definition request : TopicRequest := mkTopicRequest (lit "  ai ").

(** The digest of [seven_articles] and the state once it is fetched. *)
Definition digest : str :=
  lit "h1" ++ nl ++ nl ++ lit "h3" ++ nl ++ lit "h4" ++ nl ++ lit "h5".

Definition fetched : state nat :=
  mkState 1%nat [NewsCall (news_args key (lit "ai"))].

Definition run (get : Requests.get_args -> nat -> Requests.outcome * nat)
           (create : OpenAI.create_args -> nat -> OpenAI.outcome * nat)
  : result py_dict * state nat :=
  generate_post nat get create key request start.

End Sample.

(* ================================================================== *)
(** ** Facts about [str] *)
(* ================================================================== *)

(** Literals are never unfolded by proof search; concrete runs are settled
    by evaluation. *)
#[global] Opaque lit.

Section StrFacts.

Lemma lstrip_blank (s : str) :
  lstrip s = [] <-> forallb isspace s = true.
Proof.
  induction s as [|c r IH]; simpl.
  - tauto.
  - destruct (isspace c); simpl.
    + exact IH.
    + split; discriminate.
Qed.

Lemma lstrip_fixed (s : str) : lstrip (lstrip s) = lstrip s.
Proof.
  induction s as [|c r IH]; simpl; auto.
  destruct (isspace c) eqn:E; auto.
  simpl. now rewrite E.
Qed.

Lemma lstrip_snoc (s : str) (c : codepoint) :
  isspace c = false -> lstrip (s ++ [c]) = lstrip s ++ [c].
Proof.
  intros Hc. induction s as [|x r IH]; simpl.
  - now rewrite Hc.
  - destruct (isspace x); auto.
Qed.

Lemma rstrip_cons (c : codepoint) (r : str) :
  isspace c = false -> rstrip (c :: r) = c :: rstrip r.
Proof.
  intros Hc. unfold rstrip. simpl.
  rewrite lstrip_snoc by assumption.
  rewrite rev_app_distr. reflexivity.
Qed.

Lemma forallb_rev {A} (f : A -> bool) (l : list A) :
  forallb f (rev l) = forallb f l.
Proof.
  induction l as [|a l IH]; simpl; auto.
  rewrite forallb_app, IH. simpl. rewrite andb_true_r. apply andb_comm.
Qed.

Lemma rstrip_blank (s : str) :
  rstrip s = [] <-> forallb isspace s = true.
Proof.
  unfold rstrip. rewrite <- (forallb_rev isspace s), <- lstrip_blank.
  split; intros H.
  - apply (f_equal (@rev _)) in H. now rewrite rev_involutive in H.
  - now rewrite H.
Qed.

Lemma rstrip_fixed (s : str) : rstrip (rstrip s) = rstrip s.
Proof.
  unfold rstrip. now rewrite rev_involutive, lstrip_fixed.
Qed.

(** What [lstrip] returns is empty or starts with a visible character. *)
Lemma lstrip_head (s : str) :
  lstrip s = [] \/ exists c r, lstrip s = c :: r /\ isspace c = false.
Proof.
  induction s as [|c r IH]; simpl; auto.
  destruct (isspace c) eqn:E; auto.
  right. now exists c, r.
Qed.

Lemma strip_blank (s : str) :
  strip s = [] <-> forallb isspace s = true.
Proof.
  unfold strip. rewrite rstrip_blank, <- (lstrip_blank s).
  destruct (lstrip_head s) as [E | (c & r & E & Hc)]; rewrite E.
  - simpl. split; reflexivity.
  - simpl. rewrite Hc. simpl. split; discriminate.
Qed.

Lemma strip_idempotent (s : str) : strip (strip s) = strip s.
Proof.
  unfold strip.
  destruct (lstrip_head s) as [E | (c & r & E & Hc)]; rewrite E.
  - reflexivity.
  - rewrite (rstrip_cons c r Hc). simpl. rewrite Hc.
    rewrite <- (rstrip_cons c r Hc). apply rstrip_fixed.
Qed.

Lemma truthy_strip (s : str) :
  truthy (strip s) = negb (forallb isspace s).
Proof.
  destruct (forallb isspace s) eqn:E.
  - apply strip_blank in E. now rewrite E.
  - destruct (strip s) eqn:Es; auto.
    apply strip_blank in Es. congruence.
Qed.

Lemma truthy_strip_inv (s : str) :
  truthy (strip s) = true -> truthy s = true.
Proof.
  destruct s; auto.
Qed.

Lemma starts_with_app (p s : str) : starts_with p (p ++ s) = true.
Proof.
  induction p as [|a p IH]; simpl; auto.
  now rewrite N.eqb_refl.
Qed.

Lemma contains_app (pre x post : str) :
  contains (pre ++ x ++ post) x = true.
Proof.
  induction pre as [|a pre IH]; simpl.
  - destruct (x ++ post) eqn:E; simpl; rewrite <- E, starts_with_app;
      reflexivity.
  - rewrite IH. apply orb_true_r.
Qed.

Lemma contains_suffix (pre x : str) : contains (pre ++ x) x = true.
Proof.
  rewrite <- (app_nil_r x) at 1. apply contains_app.
Qed.

End StrFacts.

(* ================================================================== *)
(** ** Facts about the news fetcher *)
(* ================================================================== *)

Section NewsFacts.

Variable World : Type.
Variable requests_get :
  Requests.get_args -> World -> Requests.outcome * World.
Variable currentsapi_key : str.

Local Abbreviation fetch := (get_recent_news World requests_get currentsapi_key).
Local Abbreviation args := (news_args currentsapi_key).

Lemma mapM_article_title (articles : list json) (s : state World) :
  mapM (fun a => lift (article_title a)) articles s
  = (article_titles articles, s).
Proof.
  revert s. induction articles as [|a rest IH]; intros s; simpl.
  - reflexivity.
  - unfold bind, lift at 1.
    destruct (article_title a); auto.
    rewrite IH. destruct (article_titles rest); reflexivity.
Qed.

Lemma str_items_other (i : N) (items : list json) (t : str) :
  str_items i items <> Raised (RequestException t).
Proof.
  revert i. induction items as [|v rest IH]; intros i; simpl.
  - discriminate.
  - destruct v; try discriminate.
    specialize (IH (i + 1)%N).
    destruct (str_items (i + 1)%N rest); congruence.
Qed.

Lemma article_titles_other (articles : list json) (t : str) :
  article_titles articles <> Raised (RequestException t).
Proof.
  induction articles as [|a rest IH]; simpl.
  - discriminate.
  - destruct a; simpl; try discriminate.
    destruct (article_titles rest); congruence.
Qed.

Lemma digest_of_articles_other (articles : list json) (t : str) :
  digest_of_articles articles <> Raised (RequestException t).
Proof.
  unfold digest_of_articles, json_join.
  pose proof (article_titles_other articles t) as Ha.
  destruct (article_titles articles) as [ts|e].
  - pose proof (str_items_other 0%N ts t) as Hs.
    destruct (str_items 0%N ts) as [l|e]; [discriminate|].
    intros H. inversion H. subst e. now apply Hs.
  - intros H. inversion H. subst e. now apply Ha.
Qed.

(** The fetcher on a response that passes the status check and decodes
    to an object. *)
Lemma get_recent_news_decoded
      (topic : str) (s : state World) (r : Requests.Response) (w' : World)
      (payload : list (str * json)) :
  requests_get (args topic) (world s) = (Requests.Returns r, w') ->
  Requests.http_error_msg r = None ->
  Requests.body r = inr (JDict payload) ->
  fetch topic s
  = (match dict_lookup (lit "news") payload with
     | None => Ok no_news
     | Some news_data =>
         if json_truthy news_data then
           match slice5_items news_data with
           | Ok articles => digest_of_articles articles
           | Raised e => Raised e
           end
         else Ok no_news
     end,
     mkState w' (calls s ++ [NewsCall (args topic)])).
Proof.
  intros Hget Hst Hbody.
  unfold get_recent_news, try_except, bind, http_get.
  rewrite Hget.
  unfold lift at 1, Requests.raise_for_status. rewrite Hst.
  unfold lift at 1, Requests.json_of. rewrite Hbody.
  unfold lift at 1, json_get.
  destruct (dict_lookup (lit "news") payload) as [news_data|];
    [|reflexivity].
  destruct (json_truthy news_data); [|reflexivity].
  change (negb true) with false. cbv beta iota.
  unfold lift at 1.
  destruct (slice5_items news_data) as [articles|e] eqn:Es.
  - rewrite mapM_article_title.
    pose proof (digest_of_articles_other articles) as Hd.
    unfold digest_of_articles in *.
    destruct (article_titles articles) as [ts|e]; unfold lift.
    + destruct (json_join nl ts) as [d|e]; auto.
      destruct e; auto. now elim (Hd text).
    + destruct e; auto. now elim (Hd text).
  - destruct news_data; simpl in Es; try discriminate;
      inversion Es; reflexivity.
Qed.

Lemma article_titles_ok (articles : list json) :
  forallb article_ok articles = true ->
  article_titles articles
  = Ok (map (fun a => JStr (title_or_empty a)) articles).
Proof.
  induction articles as [|a rest IH]; simpl; auto.
  intros H. apply andb_prop in H. destruct H as [Ha Hr].
  rewrite (IH Hr).
  destruct a; simpl in Ha; try discriminate. simpl.
  destruct (dict_lookup (lit "title") entries) as [[]|];
    try discriminate; reflexivity.
Qed.

Lemma str_items_strings (i : N) (l : list str) :
  str_items i (map JStr l) = Ok l.
Proof.
  revert i. induction l as [|x l IH]; intros i; simpl; auto.
  now rewrite IH.
Qed.

Lemma digest_of_articles_ok (articles : list json) :
  forallb article_ok articles = true ->
  digest_of_articles articles = Ok (join nl (map title_or_empty articles)).
Proof.
  intros H. unfold digest_of_articles, json_join.
  rewrite (article_titles_ok _ H), <- (map_map title_or_empty JStr).
  now rewrite str_items_strings.
Qed.

(** C2. On a response that passes the status check and decodes to an
    object whose news list is [items], the fetcher returns the fixed
    sentinel when [items] is empty and otherwise the titles of the first
    five items (all of them when there are fewer), in order, joined by
    newlines, an item without a title contributing the empty string.
    Exactly one outbound call, the news call, is made. *)
Theorem C2_get_recent_news_success
        (topic : str) (s : state World) (r : Requests.Response) (w' : World)
        (payload : list (str * json)) (items : list json) :
  requests_get (args topic) (world s) = (Requests.Returns r, w') ->
  Requests.http_error_msg r = None ->
  Requests.body r = inr (JDict payload) ->
  news_items payload = Some items ->
  forallb article_ok (firstn 5 items) = true ->
  fetch topic s
  = (Ok (spec_headlines items),
     mkState w' (calls s ++ [NewsCall (args topic)])).
Proof.
  intros Hget Hst Hbody Hitems Hok.
  rewrite (get_recent_news_decoded topic s r w' payload Hget Hst Hbody).
  f_equal. unfold news_items in Hitems.
  destruct (dict_lookup (lit "news") payload) as [v|].
  - destruct v; try discriminate. inversion Hitems; subst items0.
    destruct items as [|a rest]; [reflexivity|].
    change (json_truthy (JList (a :: rest))) with true. cbv iota.
    change (slice5_items (JList (a :: rest)))
      with (@Ok (list json) (firstn 5 (a :: rest))).
    cbv iota. now rewrite digest_of_articles_ok.
  - inversion Hitems. reflexivity.
Qed.

End NewsFacts.

(** A run of the fetcher on seven items, the second without a title. *)
Lemma C2_get_recent_news_success_witness :
  get_recent_news nat
    (Sample.get_returning
       (Sample.response 200 "OK" (Sample.payload Sample.seven_articles)))
    Sample.key (lit "ai") Sample.start
  = (Ok (lit "h1" ++ nl ++ nl ++ lit "h3" ++ nl ++ lit "h4" ++ nl ++ lit "h5"),
     mkState 1%nat [NewsCall (news_args Sample.key (lit "ai"))]).
Proof.
  exact (C2_get_recent_news_success nat _ Sample.key (lit "ai") Sample.start
           (Sample.response 200 "OK" (Sample.payload Sample.seven_articles))
           1%nat _ Sample.seven_articles
           eq_refl eq_refl eq_refl eq_refl eq_refl).
Defined.

(* ================================================================== *)
(** ** Facts about the handler and the content generator *)
(* ================================================================== *)

Section HandlerFacts.

Variable World : Type.
Variable requests_get :
  Requests.get_args -> World -> Requests.outcome * World.
Variable ChatCompletion_create :
  OpenAI.create_args -> World -> OpenAI.outcome * World.
Variable currentsapi_key : str.

Local Abbreviation fetch := (get_recent_news World requests_get currentsapi_key).
Local Abbreviation generate :=
  (generate_content World requests_get ChatCompletion_create currentsapi_key).
Local Abbreviation handle :=
  (generate_post World requests_get ChatCompletion_create currentsapi_key).
Local Abbreviation create := (chat_create World ChatCompletion_create).
Local Abbreviation args := (news_args currentsapi_key).

Lemma str_eqb_refl (a : str) : str_eqb a a = true.
Proof.
  unfold str_eqb. destruct (list_eq_dec N.eq_dec a a); congruence.
Qed.

Lemma generation_calls_app (l1 l2 : list outbound_call) :
  generation_calls (l1 ++ l2) = generation_calls l1 ++ generation_calls l2.
Proof. apply flat_map_app. Qed.

Lemma generation_prompts_app (l1 l2 : list outbound_call) :
  generation_prompts (l1 ++ l2)
  = generation_prompts l1 ++ generation_prompts l2.
Proof. apply flat_map_app. Qed.

(** A topic that survives trimming reaches the content generator
    trimmed. *)
Lemma generate_post_valid (req : TopicRequest) (s : state World) :
  truthy (strip (topic req)) = true ->
  handle req s = generate (strip (topic req)) s.
Proof.
  intros H. unfold generate_post.
  rewrite H, (truthy_strip_inv _ H). reflexivity.
Qed.

Lemma chat_create_run (a : OpenAI.create_args) (s : state World)
      (o : OpenAI.outcome) (w' : World) :
  ChatCompletion_create a (world s) = (o, w') ->
  create a s
  = (match o with
     | OpenAI.RaisesOpenAIError text => Raised (OpenAIError text)
     | OpenAI.RaisesOther text => Raised (OtherException text)
     | OpenAI.Returns r => Ok r
     end,
     mkState w' (calls s ++ [GenerationCall a])).
Proof.
  intros H. unfold chat_create. rewrite H. destruct o; reflexivity.
Qed.

(** The fetcher on a call that fails in transport. *)
Lemma get_recent_news_transport_failure
      (t : str) (s : state World) (o : Requests.outcome) (w' : World)
      (cause : str) :
  requests_get (args t) (world s) = (o, w') ->
  transport_failure o = Some cause ->
  fetch t s
  = (Raised (HTTPException 502 (news_error_prefix ++ cause)),
     mkState w' (calls s ++ [NewsCall (args t)])).
Proof.
  intros Hget Hfail.
  unfold get_recent_news, try_except, bind, http_get. rewrite Hget.
  destruct o as [c|r]; simpl in Hfail.
  - inversion Hfail. reflexivity.
  - unfold lift at 1, Requests.raise_for_status. rewrite Hfail. reflexivity.
Qed.

(** C1. A request whose topic is empty or made of whitespace only is
    answered with status 400, and nothing is sent out: neither the
    environment nor the call log changes. *)
Theorem C1_blank_topic_rejected (req : TopicRequest) (s : state World) :
  topic req = [] \/ forallb isspace (topic req) = true ->
  handle req s = (Raised (HTTPException 400 empty_topic_detail), s)
  /\ http_status (fst (handle req s)) = 400%Z
  /\ calls (snd (handle req s)) = calls s.
Proof.
  intros H.
  assert (Hb : forallb isspace (topic req) = true).
  { destruct H as [H|H]; [now rewrite H | exact H]. }
  assert (E : handle req s = (Raised (HTTPException 400 empty_topic_detail), s)).
  { unfold generate_post. rewrite truthy_strip, Hb. simpl negb.
    rewrite orb_true_r. reflexivity. }
  rewrite E. auto.
Qed.

(** C3 (amended). When the news call fails in transport, by an exception
    out of [requests.get] or by a 4xx or 5xx status, the fetcher raises
    the 502 error whose detail ends with the cause text; the content
    generator and the handler pass that error on as it is; the only call
    logged is the news call, so no generation call is made. *)
Theorem C3_news_transport_failure
        (req : TopicRequest) (s : state World) (o : Requests.outcome)
        (w' : World) (cause : str) :
  truthy (strip (topic req)) = true ->
  requests_get (args (strip (topic req))) (world s) = (o, w') ->
  transport_failure o = Some cause ->
  let t := strip (topic req) in
  let detail := news_error_prefix ++ cause in
  let s' := mkState w' (calls s ++ [NewsCall (args t)]) in
  fetch t s = (Raised (HTTPException 502 detail), s')
  /\ generate t s = (Raised (HTTPException 502 detail), s')
  /\ handle req s = (Raised (HTTPException 502 detail), s')
  /\ http_status (fst (handle req s)) = 502%Z
  /\ contains detail cause = true
  /\ generation_calls (calls s') = generation_calls (calls s).
Proof.
  intros Hvalid Hget Hfail t detail s'.
  pose proof (get_recent_news_transport_failure t s o w' cause Hget Hfail)
    as Hfetch.
  assert (Hgen : generate t s = (Raised (HTTPException 502 detail), s')).
  { unfold generate_content, bind. rewrite Hfetch. reflexivity. }
  assert (Hpost : handle req s = (Raised (HTTPException 502 detail), s')).
  { rewrite (generate_post_valid req s Hvalid). exact Hgen. }
  repeat split; auto.
  - rewrite Hpost. reflexivity.
  - apply contains_suffix.
  - unfold s'. simpl calls. rewrite generation_calls_app. simpl.
    apply app_nil_r.
Qed.

(** C9. A topic that is not blank is handed to the content generator
    trimmed, so the handler does for it exactly what it does for the
    trimmed topic. *)
Theorem C9_topic_trimmed (req : TopicRequest) (s : state World) :
  truthy (strip (topic req)) = true ->
  handle req s = generate (strip (topic req)) s
  /\ handle req s = handle (mkTopicRequest (strip (topic req))) s.
Proof.
  intros H. split.
  - apply generate_post_valid, H.
  - rewrite (generate_post_valid req s H).
    rewrite (generate_post_valid (mkTopicRequest (strip (topic req))) s);
      simpl topic; rewrite strip_idempotent; auto.
Qed.

(** What the content generator does after the news digest is in hand:
    the three generation steps inside the [try]. *)
Lemma generate_content_steps (t news : str) (s s1 : state World) :
  fetch t s = (Ok news, s1) ->
  generate t s
  = try_except
      (bind (create (title_args t news)) (fun title_response =>
       bind (lift (OpenAI.first_content_stripped title_response)) (fun title =>
       bind (create (meta_args title)) (fun meta_response =>
       bind (lift (OpenAI.first_content_stripped meta_response)) (fun meta_description =>
       bind (create (content_args t news)) (fun content_response =>
       bind (lift (OpenAI.first_content_stripped content_response)) (fun post_content =>
       ret [ (lit "title", title)
           ; (lit "meta_description", meta_description)
           ; (lit "post_content", post_content) ])))))))
      (fun e => raise (HTTPException 500 (failure_detail e)))
      s1.
Proof.
  intros Hnews. unfold generate_content at 1, bind at 1. rewrite Hnews.
  unfold try_except.
  match goal with
  | |- context [let (_, _) := ?c in _] => destruct c as [[a|e] s']
  end; auto.
  destruct e; reflexivity.
Qed.

(** C4. When the title call succeeds and the meta-description step
    fails, the handler answers with status 500 and a detail that ends
    with the cause text; the generation calls made are the title call and
    the meta-description call and no other, so the body call is never
    issued, and no post is returned. *)
Theorem C4_meta_failure_short_circuits
        (req : TopicRequest) (s s1 : state World) (news title : str)
        (r1 : OpenAI.completion) (w2 w3 : World) (o : OpenAI.outcome)
        (e : exn) :
  truthy (strip (topic req)) = true ->
  fetch (strip (topic req)) s = (Ok news, s1) ->
  ChatCompletion_create (title_args (strip (topic req)) news) (world s1)
  = (OpenAI.Returns r1, w2) ->
  OpenAI.first_content_stripped r1 = Ok title ->
  ChatCompletion_create (meta_args title) w2 = (o, w3) ->
  generation_failure o = Some e ->
  let t := strip (topic req) in
  handle req s
  = (Raised (HTTPException 500 (failure_detail e)),
     mkState w3 (calls s1 ++ [GenerationCall (title_args t news)]
                          ++ [GenerationCall (meta_args title)]))
  /\ http_status (fst (handle req s)) = 500%Z
  /\ contains (failure_detail e) (str_exn e) = true
  /\ generation_calls (calls (snd (handle req s)))
     = generation_calls (calls s1) ++ [title_args t news; meta_args title]
  /\ (forall post, fst (handle req s) <> Ok post).
Proof.
  intros Hvalid Hnews Htitle Htext Hmeta Hfail t.
  assert (E : handle req s
              = (Raised (HTTPException 500 (failure_detail e)),
                 mkState w3 (calls s1 ++ [GenerationCall (title_args t news)]
                                      ++ [GenerationCall (meta_args title)]))).
  { rewrite (generate_post_valid req s Hvalid).
    rewrite (generate_content_steps _ news s s1 Hnews).
    unfold try_except, bind at 1.
    rewrite (chat_create_run _ s1 _ _ Htitle).
    unfold bind at 1, lift at 1. rewrite Htext.
    unfold bind at 1.
    rewrite (chat_create_run (meta_args title) (mkState w2 _) o w3 Hmeta).
    simpl calls. rewrite <- app_assoc.
    destruct o as [text|text|r2]; simpl in Hfail.
    - inversion Hfail. reflexivity.
    - inversion Hfail. reflexivity.
    - unfold bind at 1, lift at 1.
      destruct (OpenAI.first_content_stripped r2); [discriminate|].
      inversion Hfail. reflexivity. }
  rewrite E. simpl fst. simpl snd. repeat split.
  - destruct e; apply contains_suffix.
  - simpl calls. rewrite generation_calls_app. reflexivity.
  - discriminate.
Qed.

(** The run in which the title and meta-description steps succeed: the
    body call is issued whatever it then answers. *)
Lemma generate_content_titled
      (t news raw1 raw2 : str) (s s1 : state World)
      (others1 others2 : list OpenAI.choice) (w2 w3 w4 : World)
      (o3 : OpenAI.outcome) :
  fetch t s = (Ok news, s1) ->
  ChatCompletion_create (title_args t news) (world s1)
  = (OpenAI.Returns (reply_with raw1 others1), w2) ->
  ChatCompletion_create (meta_args (strip raw1)) w2
  = (OpenAI.Returns (reply_with raw2 others2), w3) ->
  ChatCompletion_create (content_args t news) w3 = (o3, w4) ->
  generate t s
  = (match o3 with
     | OpenAI.Returns r3 =>
         match OpenAI.first_content_stripped r3 with
         | Ok post_content =>
             Ok [ (lit "title", strip raw1)
                ; (lit "meta_description", strip raw2)
                ; (lit "post_content", post_content) ]
         | Raised e => Raised (HTTPException 500 (failure_detail e))
         end
     | OpenAI.RaisesOpenAIError text =>
         Raised (HTTPException 500 (failure_detail (OpenAIError text)))
     | OpenAI.RaisesOther text =>
         Raised (HTTPException 500 (failure_detail (OtherException text)))
     end,
     mkState w4 (calls s1 ++ [ GenerationCall (title_args t news)
                             ; GenerationCall (meta_args (strip raw1))
                             ; GenerationCall (content_args t news) ])).
Proof.
  intros Hnews Htitle Hmeta Hbody.
  rewrite (generate_content_steps _ news s s1 Hnews).
  unfold try_except, bind at 1.
  rewrite (chat_create_run _ s1 _ _ Htitle).
  unfold bind at 1, lift at 1.
  change (OpenAI.first_content_stripped (reply_with raw1 others1))
    with (@Ok str (strip raw1)).
  unfold bind at 1.
  rewrite (chat_create_run (meta_args (strip raw1)) (mkState w2 _) _ w3 Hmeta).
  unfold bind at 1, lift at 1.
  change (OpenAI.first_content_stripped (reply_with raw2 others2))
    with (@Ok str (strip raw2)).
  unfold bind at 1.
  rewrite (chat_create_run (content_args t news) (mkState w3 _) _ w4 Hbody).
  simpl calls. rewrite <- !app_assoc. simpl app.
  destruct o3 as [text|text|r3]; try reflexivity.
  unfold bind, lift, ret.
  destruct (OpenAI.first_content_stripped r3); reflexivity.
Qed.

(** C5. Whenever the title call returns a text, the meta-description
    call is issued next, and the title quoted in its prompt is that text
    trimmed; a post that the handler returns carries the same string
    under [title]. *)
Theorem C5_title_round_trip
        (req : TopicRequest) (s s1 : state World) (news raw : str)
        (others : list OpenAI.choice) (w2 : World) :
  truthy (strip (topic req)) = true ->
  fetch (strip (topic req)) s = (Ok news, s1) ->
  ChatCompletion_create (title_args (strip (topic req)) news) (world s1)
  = (OpenAI.Returns (reply_with raw others), w2) ->
  let t := strip (topic req) in
  (exists later,
      calls (snd (handle req s))
      = calls s1 ++ GenerationCall (title_args t news)
                 :: GenerationCall (meta_args (strip raw)) :: later)
  /\ map OpenAI.content (OpenAI.messages (meta_args (strip raw)))
     = [ lit "Напишите мета-описание для статьи с заголовком: '"
         ++ strip raw
         ++ lit "'. Оно должно быть полным, информативным и содержать основные ключевые слова. Не используй символы # и - в тексте, даже в заголовках." ]
  /\ (forall post,
         fst (handle req s) = Ok post ->
         dict_get (lit "title") post = Some (strip raw)).
Proof.
  intros Hvalid Hnews Htitle t.
  assert (E : exists res w later,
             handle req s
             = (res,
                mkState w (calls s1 ++ GenerationCall (title_args t news)
                             :: GenerationCall (meta_args (strip raw))
                             :: later))
             /\ (forall post,
                    res = Ok post ->
                    dict_get (lit "title") post = Some (strip raw))).
  { rewrite (generate_post_valid req s Hvalid).
    rewrite (generate_content_steps _ news s s1 Hnews).
    unfold try_except, bind at 1.
    rewrite (chat_create_run _ s1 _ _ Htitle).
    unfold bind at 1, lift at 1.
    change (OpenAI.first_content_stripped (reply_with raw others))
      with (@Ok str (strip raw)).
    unfold bind at 1.
    destruct (ChatCompletion_create (meta_args (strip raw)) w2)
      as [o2 w3] eqn:Hmeta.
    rewrite (chat_create_run (meta_args (strip raw)) (mkState w2 _) _ w3 Hmeta).
    simpl calls. rewrite <- app_assoc. simpl app.
    destruct o2 as [text|text|r2];
      try (eexists; exists w3, []; split; [reflexivity|discriminate]).
    unfold bind at 1, lift at 1.
    destruct (OpenAI.first_content_stripped r2) as [m|e];
      [|eexists; exists w3, []; split; [reflexivity|discriminate]].
    unfold bind at 1.
    destruct (ChatCompletion_create (content_args t news) w3)
      as [o3 w4] eqn:Hbody.
    rewrite (chat_create_run (content_args t news) (mkState w3 _) _ w4 Hbody).
    simpl calls. rewrite <- app_assoc. simpl app.
    destruct o3 as [text|text|r3];
      try (eexists; exists w4, [GenerationCall (content_args t news)];
           split; [reflexivity|discriminate]).
    unfold bind, lift, ret.
    destruct (OpenAI.first_content_stripped r3) as [c|e];
      eexists; exists w4, [GenerationCall (content_args t news)];
      (split; [reflexivity|]); [|discriminate].
    intros post E. inversion E.
    simpl dict_get. now rewrite str_eqb_refl. }
  destruct E as (res & w & later & E & Htitle_field).
  rewrite E. simpl fst. simpl snd. simpl calls.
  split; [now exists later|]. split; [reflexivity|exact Htitle_field].
Qed.

(** C6 (amended). When the news fetch and the three generation calls
    succeed, the handler returns, with status 200, a [dict] of exactly the
    three keys [title], [meta_description] and [post_content], each bound
    to the trimmed text of its call; a field is non-empty exactly when
    that text has a character that is not whitespace. *)
Theorem C6_success_response
        (req : TopicRequest) (s s1 : state World) (news raw1 raw2 raw3 : str)
        (others1 others2 others3 : list OpenAI.choice) (w2 w3 w4 : World) :
  truthy (strip (topic req)) = true ->
  fetch (strip (topic req)) s = (Ok news, s1) ->
  ChatCompletion_create (title_args (strip (topic req)) news) (world s1)
  = (OpenAI.Returns (reply_with raw1 others1), w2) ->
  ChatCompletion_create (meta_args (strip raw1)) w2
  = (OpenAI.Returns (reply_with raw2 others2), w3) ->
  ChatCompletion_create (content_args (strip (topic req)) news) w3
  = (OpenAI.Returns (reply_with raw3 others3), w4) ->
  let t := strip (topic req) in
  handle req s
  = (Ok [ (lit "title", strip raw1)
        ; (lit "meta_description", strip raw2)
        ; (lit "post_content", strip raw3) ],
     mkState w4 (calls s1 ++ [ GenerationCall (title_args t news)
                             ; GenerationCall (meta_args (strip raw1))
                             ; GenerationCall (content_args t news) ]))
  /\ http_status (fst (handle req s)) = 200%Z
  /\ truthy (strip raw1) = negb (forallb isspace raw1)
  /\ truthy (strip raw2) = negb (forallb isspace raw2)
  /\ truthy (strip raw3) = negb (forallb isspace raw3).
Proof.
  intros Hvalid Hnews Htitle Hmeta Hbody t.
  rewrite (generate_post_valid req s Hvalid).
  rewrite (generate_content_titled _ news raw1 raw2 s s1 others1 others2
             w2 w3 w4 _ Hnews Htitle Hmeta Hbody).
  repeat split; apply truthy_strip.
Qed.

(** C7 (amended). In a run whose title and meta-description steps
    succeed, the three prompts sent are, in order: the title prompt, a
    function of the topic and the news digest; the meta-description
    prompt, a function of the trimmed generated title alone; the body
    prompt, a function of the topic and the news digest alone, in which no
    generated text takes part. *)
Theorem C7_prompt_dependencies
        (req : TopicRequest) (s s1 : state World) (news raw1 raw2 : str)
        (others1 others2 : list OpenAI.choice) (w2 w3 : World) :
  truthy (strip (topic req)) = true ->
  fetch (strip (topic req)) s = (Ok news, s1) ->
  ChatCompletion_create (title_args (strip (topic req)) news) (world s1)
  = (OpenAI.Returns (reply_with raw1 others1), w2) ->
  ChatCompletion_create (meta_args (strip raw1)) w2
  = (OpenAI.Returns (reply_with raw2 others2), w3) ->
  let t := strip (topic req) in
  generation_prompts (calls (snd (handle req s)))
  = generation_prompts (calls s1)
    ++ [ title_prompt t news; meta_prompt (strip raw1); content_prompt t news ].
Proof.
  intros Hvalid Hnews Htitle Hmeta t.
  destruct (ChatCompletion_create (content_args t news) w3)
    as [o3 w4] eqn:Hbody.
  rewrite (generate_post_valid req s Hvalid).
  rewrite (generate_content_titled _ news raw1 raw2 s s1 others1 others2
             w2 w3 w4 _ Hnews Htitle Hmeta Hbody).
  simpl snd. simpl calls. rewrite generation_prompts_app. reflexivity.
Qed.

(** C8. In a run whose title and meta-description steps succeed, the
    generation calls issued are three: the title call, capped at 20
    tokens, at temperature 1.0, stopping at a newline; the
    meta-description call, capped at 30 tokens, stopping at a period; the
    body call, capped at 1000 tokens, at temperature 1.0, with presence
    and frequency penalties that are not zero. *)
Theorem C8_sampling_parameters
        (req : TopicRequest) (s s1 : state World) (news raw1 raw2 : str)
        (others1 others2 : list OpenAI.choice) (w2 w3 : World) :
  truthy (strip (topic req)) = true ->
  fetch (strip (topic req)) s = (Ok news, s1) ->
  ChatCompletion_create (title_args (strip (topic req)) news) (world s1)
  = (OpenAI.Returns (reply_with raw1 others1), w2) ->
  ChatCompletion_create (meta_args (strip raw1)) w2
  = (OpenAI.Returns (reply_with raw2 others2), w3) ->
  exists title_call meta_call body_call presence frequency,
    generation_calls (calls (snd (handle req s)))
    = generation_calls (calls s1) ++ [title_call; meta_call; body_call]
    /\ map OpenAI.content (OpenAI.messages title_call)
       = [title_prompt (strip (topic req)) news]
    /\ OpenAI.max_tokens title_call = 20%Z
    /\ (OpenAI.temperature title_call == 1)%Q
    /\ OpenAI.stop title_call = Some [nl]
    /\ map OpenAI.content (OpenAI.messages meta_call)
       = [meta_prompt (strip raw1)]
    /\ OpenAI.max_tokens meta_call = 30%Z
    /\ OpenAI.stop meta_call = Some [lit "."]
    /\ map OpenAI.content (OpenAI.messages body_call)
       = [content_prompt (strip (topic req)) news]
    /\ OpenAI.max_tokens body_call = 1000%Z
    /\ (OpenAI.temperature body_call == 1)%Q
    /\ OpenAI.presence_penalty body_call = Some presence
    /\ OpenAI.frequency_penalty body_call = Some frequency
    /\ ~ (presence == 0)%Q
    /\ ~ (frequency == 0)%Q.
Proof.
  intros Hvalid Hnews Htitle Hmeta.
  destruct (ChatCompletion_create
              (content_args (strip (topic req)) news) w3)
    as [o3 w4] eqn:Hbody.
  rewrite (generate_post_valid req s Hvalid).
  rewrite (generate_content_titled _ news raw1 raw2 s s1 others1 others2
             w2 w3 w4 _ Hnews Htitle Hmeta Hbody).
  simpl snd. simpl calls. rewrite generation_calls_app.
  exists (title_args (strip (topic req)) news), (meta_args (strip raw1)),
    (content_args (strip (topic req)) news), (6 # 10)%Q, (6 # 10)%Q.
  repeat split; try reflexivity; intros H; discriminate H.
Qed.

(** C10. News items beyond the fifth have no influence: from two
    starting points that differ only in a successful news payload, with
    item lists that are both non-empty and agree on their first five
    entries, the fetcher, the content generator and the handler each give
    the same result, the same call log and the same final environment. *)
Theorem C10_only_first_five_matter
        (req : TopicRequest) (sa sb : state World)
        (ra rb : Requests.Response) (w' : World)
        (pa pb : list (str * json)) (la lb : list json) :
  let t := strip (topic req) in
  truthy t = true ->
  calls sa = calls sb ->
  requests_get (args t) (world sa) = (Requests.Returns ra, w') ->
  requests_get (args t) (world sb) = (Requests.Returns rb, w') ->
  Requests.http_error_msg ra = None ->
  Requests.http_error_msg rb = None ->
  Requests.body ra = inr (JDict pa) ->
  Requests.body rb = inr (JDict pb) ->
  dict_lookup (lit "news") pa = Some (JList la) ->
  dict_lookup (lit "news") pb = Some (JList lb) ->
  la <> [] ->
  lb <> [] ->
  firstn 5 la = firstn 5 lb ->
  fetch t sa = fetch t sb
  /\ generate t sa = generate t sb
  /\ handle req sa = handle req sb.
Proof.
  intros t Hvalid Hcalls Hga Hgb Hsa Hsb Hba Hbb Hla Hlb Hna Hnb Hfirst.
  assert (Hfetch : fetch t sa = fetch t sb).
  { rewrite (get_recent_news_decoded _ _ _ t sa ra w' pa Hga Hsa Hba).
    rewrite (get_recent_news_decoded _ _ _ t sb rb w' pb Hgb Hsb Hbb).
    rewrite Hla, Hlb, Hcalls.
    destruct la as [|a la']; [congruence|].
    destruct lb as [|b lb']; [congruence|].
    change (json_truthy (JList (a :: la'))) with true.
    change (json_truthy (JList (b :: lb'))) with true.
    cbv iota.
    change (slice5_items (JList (a :: la')))
      with (@Ok (list json) (firstn 5 (a :: la'))).
    change (slice5_items (JList (b :: lb')))
      with (@Ok (list json) (firstn 5 (b :: lb'))).
    now rewrite Hfirst. }
  assert (Hgen : generate t sa = generate t sb).
  { unfold generate_content, bind. now rewrite Hfetch. }
  repeat split; auto.
  now rewrite !(generate_post_valid req _ Hvalid).
Qed.

End HandlerFacts.

(* ================================================================== *)
(** ** Concrete runs *)
(* ================================================================== *)

Ltac by_evaluation := vm_compute; reflexivity.

(** A topic of three spaces: status 400, nothing sent. *)
Lemma C1_blank_topic_rejected_witness :
  let blank := mkTopicRequest (lit "   ") in
  let answer :=
    generate_post nat Sample.good_get
      (Sample.create_replying "Title" "Meta" "Body") Sample.key blank
      Sample.start in
  http_status (fst answer) = 400%Z /\ snd answer = Sample.start.
Proof.
  intros blank answer.
  destruct (C1_blank_topic_rejected nat Sample.good_get
              (Sample.create_replying "Title" "Meta" "Body") Sample.key
              blank Sample.start) as (E & Hstatus & _).
  - right. by_evaluation.
  - split; [exact Hstatus|]. unfold answer. now rewrite E.
Defined.

(** A news call that times out: status 502 with the cause in the detail,
    one call logged. *)
Lemma C3_news_transport_failure_witness :
  Sample.run (Sample.get_raising "timed out")
    (Sample.create_replying "Title" "Meta" "Body")
  = (Raised (HTTPException 502 (news_error_prefix ++ lit "timed out")),
     Sample.fetched).
Proof.
  destruct (C3_news_transport_failure nat (Sample.get_raising "timed out")
              (Sample.create_replying "Title" "Meta" "Body") Sample.key
              Sample.request Sample.start
              (Requests.Raises (lit "timed out")) 1%nat (lit "timed out"))
    as (_ & _ & E & _).
  - by_evaluation.
  - by_evaluation.
  - reflexivity.
  - exact E.
Defined.

(** The claim of C3 as it is worded fails for a status outside 2xx that
    [raise_for_status] lets through: on a 300 answer with an empty news
    list the handler does not fail with 502 and all three generation calls
    are made. *)
Lemma C3_counterexample :
  let r := Sample.response 300 "Multiple Choices" (Sample.payload []) in
  let answer :=
    Sample.run (Sample.get_returning r)
      (Sample.create_replying "Title" "Meta" "Body") in
  ((Requests.status_code r <? 200)%Z || (300 <=? Requests.status_code r)%Z
   = true)
  /\ fst answer
     = Ok [ (lit "title", lit "Title")
          ; (lit "meta_description", lit "Meta")
          ; (lit "post_content", lit "Body") ]
  /\ List.length (generation_calls (calls (snd answer))) = 3%nat
  /\ ~ (http_status (fst answer) = 502%Z
        /\ generation_calls (calls (snd answer)) = []).
Proof.
  intros r answer.
  split; [by_evaluation|]. split; [by_evaluation|]. split; [by_evaluation|].
  intros [H _]. vm_compute in H. discriminate H.
Qed.

(** The title call answers, the meta-description call raises: status 500,
    two generation calls, no body call. *)
Lemma C4_meta_failure_short_circuits_witness :
  let answer :=
    Sample.run Sample.good_get
      (Sample.create_meta_failing " Title " "rate limit") in
  fst answer
  = Raised (HTTPException 500 (openai_error_prefix ++ lit "rate limit"))
  /\ generation_calls (calls (snd answer))
     = [ title_args (lit "ai") Sample.digest; meta_args (lit "Title") ].
Proof.
  intros answer.
  destruct (C4_meta_failure_short_circuits nat Sample.good_get
              (Sample.create_meta_failing " Title " "rate limit") Sample.key
              Sample.request Sample.start Sample.fetched Sample.digest
              (lit "Title") (reply_with (lit " Title ") []) 2%nat 3%nat
              (OpenAI.RaisesOpenAIError (lit "rate limit"))
              (OpenAIError (lit "rate limit")))
    as (E & _ & _ & Hcalls & _); [by_evaluation .. |].
  split.
  - unfold answer, Sample.run. now rewrite E.
  - unfold answer, Sample.run. rewrite Hcalls. by_evaluation.
Defined.

(** The title reply [" Title "] reaches the meta-description prompt as
    ["Title"]. *)
Lemma C5_title_round_trip_witness :
  exists later,
    calls (snd (Sample.run Sample.good_get
                  (Sample.create_replying " Title " "Meta" "Body")))
    = calls Sample.fetched
        ++ GenerationCall (title_args (strip (topic Sample.request)) Sample.digest)
        :: GenerationCall (meta_args (strip (lit " Title "))) :: later.
Proof.
  destruct (C5_title_round_trip nat Sample.good_get
              (Sample.create_replying " Title " "Meta" "Body") Sample.key
              Sample.request Sample.start Sample.fetched Sample.digest
              (lit " Title ") [] 2%nat)
    as (H & _); [by_evaluation .. |].
  exact H.
Defined.

(** A run in which everything succeeds. *)
Lemma C6_success_response_witness :
  fst (Sample.run Sample.good_get
         (Sample.create_replying " Title " "Meta. " "Body"))
  = Ok [ (lit "title", strip (lit " Title "))
       ; (lit "meta_description", strip (lit "Meta. "))
       ; (lit "post_content", strip (lit "Body")) ].
Proof.
  destruct (C6_success_response nat Sample.good_get
              (Sample.create_replying " Title " "Meta. " "Body") Sample.key
              Sample.request Sample.start Sample.fetched Sample.digest
              (lit " Title ") (lit "Meta. ") (lit "Body") [] [] []
              2%nat 3%nat 4%nat)
    as (E & _); [by_evaluation .. |].
  unfold Sample.run. now rewrite E.
Defined.

(** The claim of C6 as it is worded fails on non-emptiness: all four calls
    succeed, the title call answers with blanks, and the returned title is
    the empty string. *)
Lemma C6_counterexample :
  let answer :=
    Sample.run Sample.good_get (Sample.create_replying "  " "Meta" "Body") in
  fst answer
  = Ok [ (lit "title", [])
       ; (lit "meta_description", lit "Meta")
       ; (lit "post_content", lit "Body") ]
  /\ world (snd answer) = 4%nat
  /\ ~ (forall post,
          fst answer = Ok post ->
          forall k v, In (k, v) post -> truthy v = true).
Proof.
  intros answer.
  assert (E : fst answer
              = Ok [ (lit "title", [])
                   ; (lit "meta_description", lit "Meta")
                   ; (lit "post_content", lit "Body") ]) by by_evaluation.
  split; [exact E|]. split; [by_evaluation|].
  intros H. specialize (H _ E (lit "title") [] (or_introl eq_refl)).
  discriminate H.
Qed.

(** The three prompts of a run in which everything succeeds. *)
Lemma C7_prompt_dependencies_witness :
  generation_prompts
    (calls (snd (Sample.run Sample.good_get
                   (Sample.create_replying " Title " "Meta" "Body"))))
  = generation_prompts (calls Sample.fetched)
    ++ [ title_prompt (strip (topic Sample.request)) Sample.digest
       ; meta_prompt (strip (lit " Title "))
       ; content_prompt (strip (topic Sample.request)) Sample.digest ].
Proof.
  exact (C7_prompt_dependencies nat Sample.good_get
           (Sample.create_replying " Title " "Meta" "Body") Sample.key
           Sample.request Sample.start Sample.fetched Sample.digest
           (lit " Title ") (lit "Meta") [] [] 2%nat 3%nat
           eq_refl eq_refl eq_refl eq_refl).
Defined.

(** The claim of C7 as it is worded fails twice.  Two runs on the same
    topic, with the same generated title and meta-description, whose news
    differ: the title prompts differ, so the first prompt is not a function
    of the topic alone; the body prompts differ as well, and the body prompt
    holds neither generated text, so it does not embed earlier output. *)
Lemma C7_counterexample :
  let create := Sample.create_replying "QQQ" "WWW" "Body" in
  let news_a := Sample.response 200 "OK" (Sample.payload [Sample.article "a1"]) in
  let news_b := Sample.response 200 "OK" (Sample.payload [Sample.article "b1"]) in
  let run_a := Sample.run (Sample.get_returning news_a) create in
  let run_b := Sample.run (Sample.get_returning news_b) create in
  let prompts_a := generation_prompts (calls (snd run_a)) in
  let prompts_b := generation_prompts (calls (snd run_b)) in
  fst run_a
  = Ok [ (lit "title", lit "QQQ")
       ; (lit "meta_description", lit "WWW")
       ; (lit "post_content", lit "Body") ]
  /\ fst run_b = fst run_a
  /\ List.length prompts_a = 3%nat
  /\ str_eqb (nth 0 prompts_a []) (nth 0 prompts_b []) = false
  /\ str_eqb (nth 2 prompts_a []) (nth 2 prompts_b []) = false
  /\ contains (nth 2 prompts_a []) (lit "QQQ") = false
  /\ contains (nth 2 prompts_a []) (lit "WWW") = false.
Proof.
  cbv zeta. repeat split; by_evaluation.
Qed.

(** The sampling parameters logged by a run in which everything
    succeeds. *)
Lemma C8_sampling_parameters_witness :
  exists title_call meta_call body_call,
    generation_calls
      (calls (snd (Sample.run Sample.good_get
                     (Sample.create_replying " Title " "Meta" "Body"))))
    = [title_call; meta_call; body_call]
    /\ OpenAI.max_tokens title_call = 20%Z
    /\ OpenAI.max_tokens meta_call = 30%Z
    /\ OpenAI.max_tokens body_call = 1000%Z.
Proof.
  destruct (C8_sampling_parameters nat Sample.good_get
              (Sample.create_replying " Title " "Meta" "Body") Sample.key
              Sample.request Sample.start Sample.fetched Sample.digest
              (lit " Title ") (lit "Meta") [] [] 2%nat 3%nat)
    as (a & b & c & p & f & Hcalls & _ & Ha & _ & _ & _ & Hb & _ & _ & Hc & _);
    [by_evaluation .. |].
  exists a, b, c. repeat split; assumption.
Defined.

(** The handler on ["  ai "] and on ["ai"]. *)
Lemma C9_topic_trimmed_witness :
  Sample.run Sample.good_get (Sample.create_replying " Title " "Meta" "Body")
  = generate_post nat Sample.good_get
      (Sample.create_replying " Title " "Meta" "Body") Sample.key
      (mkTopicRequest (strip (topic Sample.request))) Sample.start.
Proof.
  exact (proj2 (C9_topic_trimmed nat Sample.good_get
                  (Sample.create_replying " Title " "Meta" "Body") Sample.key
                  Sample.request Sample.start eq_refl)).
Defined.

(** Seven items against six whose first five are the same. *)
Lemma C10_only_first_five_matter_witness :
  let six := firstn 5 Sample.seven_articles ++ [JNull] in
  let get :=
    Sample.get_switching
      (Sample.response 200 "OK" (Sample.payload Sample.seven_articles))
      (Sample.response 200 "OK" (Sample.payload six)) in
  let create := Sample.create_replying " Title " "Meta" "Body" in
  generate_post nat get create Sample.key Sample.request (mkState 0%nat [])
  = generate_post nat get create Sample.key Sample.request (mkState 1%nat []).
Proof.
  intros six get create.
  destruct (C10_only_first_five_matter nat get create Sample.key
              Sample.request (mkState 0%nat []) (mkState 1%nat [])
              (Sample.response 200 "OK" (Sample.payload Sample.seven_articles))
              (Sample.response 200 "OK" (Sample.payload six)) 5%nat
              [ (lit "status", JStr (lit "ok"))
              ; (lit "news", JList Sample.seven_articles) ]
              [ (lit "status", JStr (lit "ok")); (lit "news", JList six) ]
              Sample.seven_articles six)
    as (_ & _ & E);
    [by_evaluation | reflexivity | reflexivity | reflexivity
     | by_evaluation | by_evaluation | reflexivity | reflexivity
     | by_evaluation | by_evaluation | discriminate | discriminate
     | reflexivity | exact E].
Defined.

(* ================================================================== *)
(** ** Further facts: every run of the news fetcher *)
(* ================================================================== *)

Section FetcherRuns.

Variable World : Type.
Variable requests_get :
  Requests.get_args -> World -> Requests.outcome * World.
Variable currentsapi_key : str.

Local Abbreviation fetch := (get_recent_news World requests_get currentsapi_key).
Local Abbreviation args := (news_args currentsapi_key).

Lemma str_items_raises (i : N) (items : list json) (e : exn) :
  str_items i items = Raised e -> exists text, e = OtherException text.
Proof.
  revert i. induction items as [|v rest IH]; intros i; simpl.
  - discriminate.
  - destruct v; try (intros H; inversion H; eauto).
    destruct (str_items (i + 1)%N rest) eqn:E; [discriminate|].
    inversion H; subst. eapply IH, E.
Qed.

Lemma article_titles_raises (articles : list json) (e : exn) :
  article_titles articles = Raised e -> exists text, e = OtherException text.
Proof.
  induction articles as [|a rest IH]; simpl.
  - discriminate.
  - destruct (article_title a) as [t|e'] eqn:Ea.
    + destruct (article_titles rest); [discriminate|].
      intros H. inversion H; subst. now apply IH.
    + intros H. inversion H; subst.
      destruct a; simpl in Ea; unfold no_attribute in Ea; inversion Ea; eauto.
Qed.

Lemma digest_of_articles_raises (articles : list json) (e : exn) :
  digest_of_articles articles = Raised e -> exists text, e = OtherException text.
Proof.
  unfold digest_of_articles, json_join.
  destruct (article_titles articles) as [ts|e'] eqn:Ea.
  - destruct (str_items 0%N ts) eqn:Es; [discriminate|].
    intros H. inversion H; subst. eapply str_items_raises, Es.
  - intros H. inversion H; subst. eapply article_titles_raises, Ea.
Qed.

Lemma digest_of_payload_raises (v : json) (e : exn) :
  digest_of_payload v = Raised e -> exists text, e = OtherException text.
Proof.
  unfold digest_of_payload.
  destruct (json_get v (lit "news") (JList [])) as [news_data|e'] eqn:Eg.
  - destruct (json_truthy news_data); [|discriminate].
    destruct (slice5_items news_data) as [articles|e''] eqn:Es.
    + apply digest_of_articles_raises.
    + intros H. inversion H; subst.
      destruct news_data; inversion Es; eauto.
  - intros H. inversion H; subst.
    destruct v; simpl in Eg; unfold no_attribute in Eg; inversion Eg; eauto.
Qed.

(** The fetcher on any response that passes the status check and
    decodes. *)
Lemma get_recent_news_payload
      (t : str) (s : state World) (r : Requests.Response) (w' : World)
      (v : json) :
  requests_get (args t) (world s) = (Requests.Returns r, w') ->
  Requests.http_error_msg r = None ->
  Requests.body r = inr v ->
  fetch t s
  = (digest_of_payload v, mkState w' (calls s ++ [NewsCall (args t)])).
Proof.
  intros Hget Hst Hbody.
  assert (Hdict : forall payload, v = JDict payload ->
            fetch t s
            = (digest_of_payload v,
               mkState w' (calls s ++ [NewsCall (args t)]))).
  { intros payload ->.
    rewrite (get_recent_news_decoded _ _ _ t s r w' payload Hget Hst Hbody).
    unfold digest_of_payload, json_get.
    destruct (dict_lookup (lit "news") payload); reflexivity. }
  destruct v; try (now eapply Hdict);
    unfold get_recent_news, try_except, bind, http_get; rewrite Hget;
    unfold lift at 1, Requests.raise_for_status; rewrite Hst;
    unfold lift at 1, Requests.json_of; rewrite Hbody; reflexivity.
Qed.

(** The state the fetcher leaves, on every path. *)
Lemma get_recent_news_state (t : str) (s : state World) :
  snd (fetch t s)
  = mkState (snd (requests_get (args t) (world s)))
            (calls s ++ [NewsCall (args t)]).
Proof.
  destruct (requests_get (args t) (world s)) as [o w'] eqn:Hget.
  destruct o as [cause|r].
  - rewrite (get_recent_news_transport_failure _ _ _ t s _ w' cause Hget eq_refl).
    reflexivity.
  - destruct (Requests.http_error_msg r) as [cause|] eqn:Hst.
    + rewrite (get_recent_news_transport_failure _ _ _ t s _ w' cause Hget Hst).
      reflexivity.
    + destruct (Requests.body r) as [text|v] eqn:Hbody.
      * unfold get_recent_news, try_except, bind, http_get. rewrite Hget.
        unfold lift at 1, Requests.raise_for_status. rewrite Hst.
        unfold lift at 1, Requests.json_of. rewrite Hbody. reflexivity.
      * rewrite (get_recent_news_payload t s r w' v Hget Hst Hbody).
        reflexivity.
Qed.

(** The ways in which the fetcher can end. *)
Lemma get_recent_news_outcomes (t : str) (s : state World) :
  (exists digest, fst (fetch t s) = Ok digest)
  \/ (exists cause,
         fst (fetch t s)
         = Raised (HTTPException 502 (news_error_prefix ++ cause)))
  \/ (exists text, fst (fetch t s) = Raised (OtherException text)).
Proof.
  destruct (requests_get (args t) (world s)) as [o w'] eqn:Hget.
  destruct o as [cause|r].
  - right; left. exists cause.
    now rewrite (get_recent_news_transport_failure _ _ _ t s _ w' cause Hget eq_refl).
  - destruct (Requests.http_error_msg r) as [cause|] eqn:Hst.
    + right; left. exists cause.
      now rewrite (get_recent_news_transport_failure _ _ _ t s _ w' cause Hget Hst).
    + destruct (Requests.body r) as [text|v] eqn:Hbody.
      * right; left. exists text.
        unfold get_recent_news, try_except, bind, http_get. rewrite Hget.
        unfold lift at 1, Requests.raise_for_status. rewrite Hst.
        unfold lift at 1, Requests.json_of. rewrite Hbody. reflexivity.
      * rewrite (get_recent_news_payload t s r w' v Hget Hst Hbody).
        simpl fst.
        destruct (digest_of_payload v) as [d|e] eqn:Ed; [eauto|].
        right; right. destruct (digest_of_payload_raises v e Ed) as [text ->].
        eauto.
Qed.

(** X1. Whatever the news service answers, and also when it does not
    answer, the fetcher issues exactly one call: a GET on the latest-news
    address with language [en], the topic as keywords, the API key, and a
    timeout of 10 seconds. *)
Theorem X1_fetch_single_call (t : str) (s : state World) :
  snd (fetch t s)
  = mkState (snd (requests_get (args t) (world s)))
            (calls s ++ [NewsCall (args t)])
  /\ Requests.url (args t)
     = lit "https://api.currentsapi.services/v1/latest-news"
  /\ Requests.params (args t)
     = [ (lit "language", lit "en"); (lit "keywords", t)
       ; (lit "apiKey", currentsapi_key) ]
  /\ Requests.timeout (args t) = 10%Z.
Proof.
  split; [apply get_recent_news_state | repeat split].
Qed.

(** X2. The fetcher ends in one of three ways only: it returns a digest;
    it raises the 502 error whose detail is the fixed prefix followed by a
    cause; or it raises an exception that is neither an HTTP error nor a
    request error (a payload of the wrong shape).  A [RequestException]
    never escapes it. *)
Theorem X2_fetch_outcomes (t : str) (s : state World) :
  (exists digest, fst (fetch t s) = Ok digest)
  \/ (exists cause,
         fst (fetch t s)
         = Raised (HTTPException 502 (news_error_prefix ++ cause)))
  \/ (exists text, fst (fetch t s) = Raised (OtherException text)).
Proof.
  apply get_recent_news_outcomes.
Qed.

(** X3. A payload whose [news] entry is any false value ([null],
    [false], [0], [""], an empty list or an empty object) is treated as no
    news: the fetcher returns the sentinel and does not fail. *)
Theorem X3_falsy_news_is_no_news
        (t : str) (s : state World) (r : Requests.Response) (w' : World)
        (payload : list (str * json)) (v : json) :
  requests_get (args t) (world s) = (Requests.Returns r, w') ->
  Requests.http_error_msg r = None ->
  Requests.body r = inr (JDict payload) ->
  dict_lookup (lit "news") payload = Some v ->
  json_truthy v = false ->
  fetch t s = (Ok no_news, mkState w' (calls s ++ [NewsCall (args t)])).
Proof.
  intros Hget Hst Hbody Hv Hfalse.
  rewrite (get_recent_news_decoded _ _ _ t s r w' payload Hget Hst Hbody).
  now rewrite Hv, Hfalse.
Qed.

Lemma article_titles_strings (l ts : list json) (i : N) (ss : list str) :
  article_titles l = Ok ts ->
  str_items i ts = Ok ss ->
  forallb article_ok l = true.
Proof.
  revert ts i ss. induction l as [|a rest IH]; intros ts i ss; simpl; auto.
  destruct (article_title a) as [x|] eqn:Ea; [|discriminate].
  destruct (article_titles rest) as [ts'|] eqn:Er; [|discriminate].
  intros H. inversion H; subst ts. simpl.
  destruct x; try discriminate.
  destruct (str_items (i + 1)%N ts') as [ss'|] eqn:Es; [|discriminate].
  intros _. rewrite (IH ts' (i + 1)%N ss' eq_refl Es), andb_true_r.
  destruct a; try discriminate. simpl in Ea. simpl.
  destruct (dict_lookup (lit "title") entries) as [[]|];
    inversion Ea; reflexivity.
Qed.

Lemma digest_of_articles_ok_iff (l : list json) :
  (exists digest, digest_of_articles l = Ok digest)
  <-> forallb article_ok l = true.
Proof.
  split.
  - intros [d Hd]. unfold digest_of_articles, json_join in Hd.
    destruct (article_titles l) as [ts|] eqn:Ea; [|discriminate Hd].
    destruct (str_items 0%N ts) as [ss|] eqn:Es; [|discriminate Hd].
    eapply article_titles_strings; eassumption.
  - intros Hok. rewrite (digest_of_articles_ok _ Hok). eauto.
Qed.

(** X5. For a non-empty news list the fetcher returns a digest exactly
    when each of the first five items is an object whose title, if present,
    is a string; an item that is not an object, or a title that is [null] or
    a number, among the first five makes it raise. *)
Theorem X5_fetch_succeeds_iff_well_formed
        (t : str) (s : state World) (r : Requests.Response) (w' : World)
        (payload : list (str * json)) (items : list json) :
  requests_get (args t) (world s) = (Requests.Returns r, w') ->
  Requests.http_error_msg r = None ->
  Requests.body r = inr (JDict payload) ->
  dict_lookup (lit "news") payload = Some (JList items) ->
  items <> [] ->
  ((exists digest, fst (fetch t s) = Ok digest)
   <-> forallb article_ok (firstn 5 items) = true).
Proof.
  intros Hget Hst Hbody Hitems Hne.
  rewrite (get_recent_news_decoded _ _ _ t s r w' payload Hget Hst Hbody).
  rewrite Hitems. simpl fst.
  destruct items as [|a rest]; [congruence|].
  exact (digest_of_articles_ok_iff (firstn 5 (a :: rest))).
Qed.

End FetcherRuns.

(* ================================================================== *)
(** ** Further facts: every run of the generator and of the handler *)
(* ================================================================== *)

Section HandlerRuns.

Variable World : Type.
Variable requests_get :
  Requests.get_args -> World -> Requests.outcome * World.
Variable ChatCompletion_create :
  OpenAI.create_args -> World -> OpenAI.outcome * World.
Variable currentsapi_key : str.

Local Abbreviation fetch := (get_recent_news World requests_get currentsapi_key).
Local Abbreviation generate :=
  (generate_content World requests_get ChatCompletion_create currentsapi_key).
Local Abbreviation handle :=
  (generate_post World requests_get ChatCompletion_create currentsapi_key).
Local Abbreviation create := (chat_create World ChatCompletion_create).
Local Abbreviation args := (news_args currentsapi_key).
Local Abbreviation steps t news title :=
  [title_args t news; meta_args title; content_args t news].

Lemma first_content_stripped_fixed (r : OpenAI.completion) (x : str) :
  OpenAI.first_content_stripped r = Ok x -> strip x = x.
Proof.
  unfold OpenAI.first_content_stripped.
  destruct (OpenAI.choices r) as [|c rest]; [discriminate|].
  destruct (OpenAI.reply_content (OpenAI.message c)); [|discriminate].
  intros H. inversion H. apply strip_idempotent.
Qed.

Lemma generate_fetch_failed (t : str) (s s1 : state World) (e : exn) :
  fetch t s = (Raised e, s1) -> generate t s = (Raised e, s1).
Proof.
  intros H. unfold generate_content, bind. now rewrite H.
Qed.

Lemma generate_post_blank (req : TopicRequest) (s : state World) :
  forallb isspace (topic req) = true ->
  handle req s = (Raised (HTTPException 400 empty_topic_detail), s).
Proof.
  intros Hb. unfold generate_post. rewrite truthy_strip, Hb. simpl negb.
  rewrite orb_true_r. reflexivity.
Qed.

(** The generator once the digest is in hand: between one and three
    generation calls, in the fixed order, and either a 500 error or, after
    all three, the finished post. *)
Lemma generate_shape (t news : str) (s s1 : state World) :
  fetch t s = (Ok news, s1) ->
  exists res w title n,
    generate t s
    = (res, mkState w (calls s1
                         ++ map GenerationCall (firstn n (steps t news title))))
    /\ strip title = title
    /\ (1 <= n <= 3)%nat
    /\ ((exists e, res = Raised (HTTPException 500 (failure_detail e)))
        \/ (n = 3%nat
            /\ exists m p,
                strip m = m /\ strip p = p
                /\ res = Ok [ (lit "title", title)
                            ; (lit "meta_description", m)
                            ; (lit "post_content", p) ])).
Proof.
  intros Hnews.
  rewrite (generate_content_steps _ _ _ _ t news s s1 Hnews).
  unfold try_except, bind at 1.
  destruct (ChatCompletion_create (title_args t news) (world s1))
    as [o1 w2] eqn:H1.
  rewrite (chat_create_run _ _ _ s1 o1 w2 H1).
  assert (Hempty : strip (@nil codepoint) = []) by reflexivity.
  destruct o1 as [text|text|r1];
    try (eexists; exists w2, [], 1%nat;
         split; [reflexivity|]; split; [exact Hempty|];
         split; [lia|]; left; eexists; reflexivity).
  unfold bind at 1, lift at 1.
  destruct (OpenAI.first_content_stripped r1) as [title|e1] eqn:E1;
    [|eexists; exists w2, [], 1%nat;
      split; [reflexivity|]; split; [exact Hempty|];
      split; [lia|]; left; eexists; reflexivity].
  pose proof (first_content_stripped_fixed r1 title E1) as Htitle.
  unfold bind at 1.
  destruct (ChatCompletion_create (meta_args title) w2) as [o2 w3] eqn:H2.
  rewrite (chat_create_run _ _ (meta_args title) (mkState w2 _) o2 w3 H2).
  simpl calls. rewrite <- app_assoc. simpl app.
  destruct o2 as [text|text|r2];
    try (eexists; exists w3, title, 2%nat;
         split; [reflexivity|]; split; [exact Htitle|];
         split; [lia|]; left; eexists; reflexivity).
  unfold bind at 1, lift at 1.
  destruct (OpenAI.first_content_stripped r2) as [m|e2] eqn:E2;
    [|eexists; exists w3, title, 2%nat;
      split; [reflexivity|]; split; [exact Htitle|];
      split; [lia|]; left; eexists; reflexivity].
  pose proof (first_content_stripped_fixed r2 m E2) as Hm.
  unfold bind at 1.
  destruct (ChatCompletion_create (content_args t news) w3) as [o3 w4] eqn:H3.
  rewrite (chat_create_run _ _ (content_args t news) (mkState w3 _) o3 w4 H3).
  simpl calls. rewrite <- app_assoc. simpl app.
  destruct o3 as [text|text|r3];
    try (eexists; exists w4, title, 3%nat;
         split; [reflexivity|]; split; [exact Htitle|];
         split; [lia|]; left; eexists; reflexivity).
  unfold bind, lift, ret.
  destruct (OpenAI.first_content_stripped r3) as [p|e3] eqn:E3;
    eexists; exists w4, title, 3%nat;
    (split; [reflexivity|]); (split; [exact Htitle|]); (split; [lia|]).
  - right. split; [reflexivity|]. exists m, p.
    split; [exact Hm|]. split; [|reflexivity].
    exact (first_content_stripped_fixed r3 p E3).
  - left. eexists. reflexivity.
Qed.

(** Every run of the handler, by the stage at which it ends. *)
Lemma generate_post_shape (req : TopicRequest) (s : state World) :
  let t := strip (topic req) in
  (forallb isspace (topic req) = true
   /\ handle req s = (Raised (HTTPException 400 empty_topic_detail), s))
  \/ (truthy t = true
      /\ exists e w,
          handle req s = (Raised e, mkState w (calls s ++ [NewsCall (args t)]))
          /\ ((exists cause, e = HTTPException 502 (news_error_prefix ++ cause))
              \/ (exists text, e = OtherException text)))
  \/ (truthy t = true
      /\ exists news res w title n,
          handle req s
          = (res, mkState w (calls s ++ NewsCall (args t)
                               :: map GenerationCall
                                    (firstn n (steps t news title))))
          /\ strip title = title
          /\ (1 <= n <= 3)%nat
          /\ ((exists e, res = Raised (HTTPException 500 (failure_detail e)))
              \/ (n = 3%nat
                  /\ exists m p,
                      strip m = m /\ strip p = p
                      /\ res = Ok [ (lit "title", title)
                                  ; (lit "meta_description", m)
                                  ; (lit "post_content", p) ]))).
Proof.
  intros t.
  destruct (forallb isspace (topic req)) eqn:Hb.
  - left. split; [reflexivity|]. now apply generate_post_blank.
  - right.
    assert (Hvalid : truthy t = true) by (unfold t; now rewrite truthy_strip, Hb).
    rewrite (generate_post_valid _ _ _ _ req s Hvalid). fold t.
    pose proof (get_recent_news_state World requests_get currentsapi_key t s)
      as Hstate.
    pose proof (get_recent_news_outcomes World requests_get currentsapi_key t s)
      as Hout.
    destruct (fetch t s) as [rf s1] eqn:Hfetch. simpl in Hstate, Hout.
    destruct Hout as [[news ->] | [[cause ->] | [text ->]]].
    + right. split; [exact Hvalid|].
      destruct (generate_shape t news s s1 Hfetch)
        as (res & w & title & n & E & Ht & Hn & Hres).
      exists news, res, w, title, n. rewrite E, Hstate. simpl calls.
      rewrite <- app_assoc. simpl app. auto.
    + left. split; [exact Hvalid|].
      rewrite (generate_fetch_failed t s s1 _ Hfetch), Hstate. eauto 6.
    + left. split; [exact Hvalid|].
      rewrite (generate_fetch_failed t s s1 _ Hfetch), Hstate. eauto 6.
Qed.

Lemma generation_calls_map (l : list OpenAI.create_args) :
  generation_calls (map GenerationCall l) = l.
Proof.
  induction l as [|a l IH]; [reflexivity|].
  change (generation_calls (map GenerationCall (a :: l)))
    with (a :: generation_calls (map GenerationCall l)).
  now rewrite IH.
Qed.

Lemma generation_calls_run (log : list outbound_call)
      (a : Requests.get_args) (gens : list OpenAI.create_args) :
  generation_calls (log ++ NewsCall a :: map GenerationCall gens)
  = generation_calls log ++ gens.
Proof.
  rewrite generation_calls_app.
  change (generation_calls (NewsCall a :: map GenerationCall gens))
    with (generation_calls (map GenerationCall gens)).
  now rewrite generation_calls_map.
Qed.

Lemma generate_title_failed
      (t news : str) (s s1 : state World) (o : OpenAI.outcome) (w2 : World)
      (e : exn) :
  fetch t s = (Ok news, s1) ->
  ChatCompletion_create (title_args t news) (world s1) = (o, w2) ->
  generation_failure o = Some e ->
  generate t s
  = (Raised (HTTPException 500 (failure_detail e)),
     mkState w2 (calls s1 ++ [GenerationCall (title_args t news)])).
Proof.
  intros Hnews Htitle Hfail.
  rewrite (generate_content_steps _ _ _ _ t news s s1 Hnews).
  unfold try_except, bind at 1.
  rewrite (chat_create_run _ _ _ s1 o w2 Htitle).
  destruct o as [text|text|r]; simpl in Hfail.
  - inversion Hfail. reflexivity.
  - inversion Hfail. reflexivity.
  - unfold bind at 1, lift at 1.
    destruct (OpenAI.first_content_stripped r); [discriminate|].
    inversion Hfail. reflexivity.
Qed.

(** X4. A news payload that decodes to something other than an object
    (a list, a string, [null], ...) makes [.get] fail; that exception is not
    turned into the 502 error: it leaves the fetcher, the generator and the
    handler as it is, the request ends with status 500, and no generation
    call is made. *)
Theorem X4_payload_not_an_object
        (req : TopicRequest) (s : state World) (r : Requests.Response)
        (w' : World) (v : json) :
  truthy (strip (topic req)) = true ->
  requests_get (args (strip (topic req))) (world s)
  = (Requests.Returns r, w') ->
  Requests.http_error_msg r = None ->
  Requests.body r = inr v ->
  (forall d, v <> JDict d) ->
  let s' := mkState w' (calls s ++ [NewsCall (args (strip (topic req)))]) in
  handle req s = (Raised (no_attribute v "get"), s')
  /\ http_status (fst (handle req s)) = 500%Z
  /\ generation_calls (calls s') = generation_calls (calls s).
Proof.
  intros Hvalid Hget Hst Hbody Hshape s'.
  assert (E : handle req s = (Raised (no_attribute v "get"), s')).
  { rewrite (generate_post_valid _ _ _ _ req s Hvalid).
    apply generate_fetch_failed.
    rewrite (get_recent_news_payload _ _ _ _ s r w' v Hget Hst Hbody).
    destruct v; try reflexivity. now elim (Hshape entries). }
  rewrite E. repeat split.
  unfold s'. simpl calls. rewrite generation_calls_app. apply app_nil_r.
Qed.

(** X6. When the title step fails, by an exception out of the call or
    by a reply that cannot be read, the handler answers 500 with the
    failure's detail after a single generation call: neither the
    meta-description call nor the body call is made. *)
Theorem X6_title_failure_stops
        (req : TopicRequest) (s s1 : state World) (news : str)
        (o : OpenAI.outcome) (w2 : World) (e : exn) :
  truthy (strip (topic req)) = true ->
  fetch (strip (topic req)) s = (Ok news, s1) ->
  ChatCompletion_create (title_args (strip (topic req)) news) (world s1)
  = (o, w2) ->
  generation_failure o = Some e ->
  let t := strip (topic req) in
  handle req s
  = (Raised (HTTPException 500 (failure_detail e)),
     mkState w2 (calls s1 ++ [GenerationCall (title_args t news)]))
  /\ generation_calls (calls (snd (handle req s)))
     = generation_calls (calls s1) ++ [title_args t news].
Proof.
  intros Hvalid Hnews Htitle Hfail t.
  rewrite (generate_post_valid _ _ _ _ req s Hvalid).
  rewrite (generate_title_failed _ news s s1 o w2 e Hnews Htitle Hfail).
  split; [reflexivity|]. simpl snd. simpl calls.
  now rewrite generation_calls_app.
Qed.

(** X7. When the title and the meta-description steps succeed and the
    body step fails, the handler answers 500 with the failure's detail
    after three generation calls; the title and the meta-description
    already generated are not returned. *)
Theorem X7_body_failure_discards_post
        (req : TopicRequest) (s s1 : state World) (news raw1 raw2 : str)
        (others1 others2 : list OpenAI.choice) (w2 w3 w4 : World)
        (o3 : OpenAI.outcome) (e : exn) :
  truthy (strip (topic req)) = true ->
  fetch (strip (topic req)) s = (Ok news, s1) ->
  ChatCompletion_create (title_args (strip (topic req)) news) (world s1)
  = (OpenAI.Returns (reply_with raw1 others1), w2) ->
  ChatCompletion_create (meta_args (strip raw1)) w2
  = (OpenAI.Returns (reply_with raw2 others2), w3) ->
  ChatCompletion_create (content_args (strip (topic req)) news) w3
  = (o3, w4) ->
  generation_failure o3 = Some e ->
  let t := strip (topic req) in
  handle req s
  = (Raised (HTTPException 500 (failure_detail e)),
     mkState w4 (calls s1 ++ [ GenerationCall (title_args t news)
                             ; GenerationCall (meta_args (strip raw1))
                             ; GenerationCall (content_args t news) ]))
  /\ (forall post, fst (handle req s) <> Ok post).
Proof.
  intros Hvalid Hnews Htitle Hmeta Hbody Hfail t.
  rewrite (generate_post_valid _ _ _ _ req s Hvalid).
  rewrite (generate_content_titled _ _ _ _ _ news raw1 raw2 s s1
             others1 others2 w2 w3 w4 o3 Hnews Htitle Hmeta Hbody).
  destruct o3 as [text|text|r3]; simpl in Hfail.
  - inversion Hfail. split; [reflexivity|discriminate].
  - inversion Hfail. split; [reflexivity|discriminate].
  - destruct (OpenAI.first_content_stripped r3); [discriminate|].
    inversion Hfail. split; [reflexivity|discriminate].
Qed.

(** X8. A title reply that cannot be read is reported as a content
    error, not as an OpenAI error: the detail is the content-generation
    prefix followed by Python's message, which is that of the index error
    when the reply has no choice and that of the attribute error when the
    first choice has no text. *)
Theorem X8_unreadable_reply_detail
        (req : TopicRequest) (s s1 : state World) (news : str)
        (r : OpenAI.completion) (w2 : World) (e : exn) :
  truthy (strip (topic req)) = true ->
  fetch (strip (topic req)) s = (Ok news, s1) ->
  ChatCompletion_create (title_args (strip (topic req)) news) (world s1)
  = (OpenAI.Returns r, w2) ->
  OpenAI.first_content_stripped r = Raised e ->
  fst (handle req s)
  = Raised (HTTPException 500 (content_error_prefix ++ str_exn e))
  /\ ((OpenAI.choices r = []
       /\ str_exn e = lit "list index out of range")
      \/ (exists c rest,
             OpenAI.choices r = c :: rest
             /\ OpenAI.reply_content (OpenAI.message c) = None
             /\ str_exn e = lit "'NoneType' object has no attribute 'strip'")).
Proof.
  intros Hvalid Hnews Htitle Hread.
  assert (Hfail : generation_failure (OpenAI.Returns r) = Some e).
  { simpl. now rewrite Hread. }
  rewrite (generate_post_valid _ _ _ _ req s Hvalid).
  rewrite (generate_title_failed _ news s s1 _ w2 e Hnews Htitle Hfail).
  simpl fst. unfold OpenAI.first_content_stripped in Hread.
  destruct (OpenAI.choices r) as [|c rest].
  - inversion Hread. split; [reflexivity|]. left. split; reflexivity.
  - destruct (OpenAI.reply_content (OpenAI.message c)) eqn:Ec;
      [discriminate|].
    inversion Hread. split; [reflexivity|]. right. exists c, rest.
    repeat split; auto.
Qed.



(** X9. A post is returned only at the end of a complete run: the topic
    was not blank, the log has grown by the news call followed by the
    title, meta-description and body calls in this order, the post has the
    keys [title], [meta_description] and [post_content] and no other, and
    no value in it starts or ends with whitespace. *)
Theorem X9_returned_post_is_complete
        (req : TopicRequest) (s : state World) (post : py_dict) :
  fst (handle req s) = Ok post ->
  let t := strip (topic req) in
  truthy t = true
  /\ map fst post = [lit "title"; lit "meta_description"; lit "post_content"]
  /\ (forall v, In v (map snd post) -> strip v = v)
  /\ exists news title,
      dict_get (lit "title") post = Some title
      /\ calls (snd (handle req s))
         = calls s ++ NewsCall (args t)
             :: map GenerationCall (steps t news title).
Proof.
  intros H t.
  pose proof (generate_post_shape req s) as Hs. cbv zeta in Hs. fold t in Hs.
  destruct Hs as [[_ E] | [[_ (e & w & E & _)]
                          | [Hv (news & res & w & title & n & E & Ht & _ & Hres)]]];
    rewrite E in H; simpl fst in H; try discriminate H.
  destruct Hres as [[e ->] | [-> (m & p & Hm & Hp & ->)]];
    [discriminate H|].
  inversion H; subst post. rewrite E. simpl snd. simpl calls.
  split; [exact Hv|]. split; [reflexivity|]. split.
  - intros v [<-|[<-|[<-|[]]]]; assumption.
  - exists news, title. split; [|reflexivity].
    simpl dict_get. now rewrite str_eqb_refl.
Qed.

(** X10. One request makes at most four outbound calls and repeats
    none: either nothing is sent, or the news call is sent once, followed
    by an initial part of the sequence title call, meta-description call,
    body call. *)
Theorem X10_at_most_four_calls (req : TopicRequest) (s : state World) :
  calls (snd (handle req s)) = calls s
  \/ exists news title n,
      (n <= 3)%nat
      /\ calls (snd (handle req s))
         = calls s ++ NewsCall (args (strip (topic req)))
             :: map GenerationCall
                  (firstn n (steps (strip (topic req)) news title)).
Proof.
  pose proof (generate_post_shape req s) as Hs. cbv zeta in Hs.
  destruct Hs as [[_ E] | [[_ (e & w & E & _)]
                          | [_ (news & res & w & title & n & E & _ & Hn & _)]]];
    rewrite E; simpl snd; simpl calls.
  - now left.
  - right. exists [], [], 0%nat. split; [lia|reflexivity].
  - right. exists news, title, n. split; [lia|reflexivity].
Qed.


(** X12. The endpoint answers 400 exactly for a blank topic: a topic
    with a visible character never gets 400, whatever happens later. *)
Theorem X12_bad_request_iff_blank (req : TopicRequest) (s : state World) :
  http_status (fst (handle req s)) = 400%Z
  <-> forallb isspace (topic req) = true.
Proof.
  split.
  - intros H.
    pose proof (generate_post_shape req s) as Hs. cbv zeta in Hs.
    destruct Hs as [[Hb _] | [[_ (e & w & E & He)]
                             | [_ (news & res & w & title & n & E & _ & _ & Hres)]]];
      [exact Hb | |]; rewrite E in H; simpl fst in H.
    + destruct He as [[cause ->] | [text ->]]; discriminate H.
    + destruct Hres as [[e ->] | [_ (m & p & _ & _ & ->)]]; discriminate H.
  - intros Hb. now rewrite (generate_post_blank req s Hb).
Qed.

(** X13. Status 502 comes from the news stage alone: when the endpoint
    answers 502, the detail is the news prefix followed by a cause and the
    only call made is the news call. *)
Theorem X13_bad_gateway_only_from_news
        (req : TopicRequest) (s : state World) :
  http_status (fst (handle req s)) = 502%Z ->
  exists cause w,
    handle req s
    = (Raised (HTTPException 502 (news_error_prefix ++ cause)),
       mkState w (calls s ++ [NewsCall (args (strip (topic req)))])).
Proof.
  intros H.
  pose proof (generate_post_shape req s) as Hs. cbv zeta in Hs.
  destruct Hs as [[_ E] | [[_ (e & w & E & He)]
                          | [_ (news & res & w & title & n & E & _ & _ & Hres)]]];
    rewrite E in H; simpl fst in H.
  - discriminate H.
  - destruct He as [[cause ->] | [text ->]]; [|discriminate H].
    exists cause, w. exact E.
  - destruct Hres as [[e ->] | [_ (m & p & _ & _ & ->)]]; discriminate H.
Qed.

(** X14. Every generation call a request makes goes to the model
    [gpt-4o-mini] with a single message of role [user], at temperature
    1.0. *)
Theorem X14_generation_call_settings
        (req : TopicRequest) (s : state World) (a : OpenAI.create_args) :
  In a (generation_calls (calls (snd (handle req s)))) ->
  In a (generation_calls (calls s))
  \/ (OpenAI.model a = lit "gpt-4o-mini"
      /\ (exists text, OpenAI.messages a = [user_message text])
      /\ (OpenAI.temperature a == 1)%Q).
Proof.
  pose proof (generate_post_shape req s) as Hs. cbv zeta in Hs.
  destruct Hs as [[_ E] | [[_ (e & w & E & _)]
                          | [_ (news & res & w & title & n & E & _ & Hn & _)]]];
    rewrite E; simpl snd; simpl calls.
  - now left.
  - rewrite generation_calls_app. simpl. rewrite app_nil_r. now left.
  - rewrite generation_calls_run. intros H. apply in_app_or in H.
    destruct H as [H|H]; [now left|]. right.
    assert (Hsteps : forall x,
               In x (steps (strip (topic req)) news title) ->
               OpenAI.model x = lit "gpt-4o-mini"
               /\ (exists text, OpenAI.messages x = [user_message text])
               /\ (OpenAI.temperature x == 1)%Q).
    { intros x [<-|[<-|[<-|[]]]];
        (split; [reflexivity|split; [eexists; reflexivity|reflexivity]]). }
    apply Hsteps.
    destruct n as [|[|[|[|n]]]]; try lia; simpl in H |- *; tauto.
Qed.

(** X15. Once the digest is fetched the title call is always made, and
    its prompt carries the trimmed topic and the digest word for word; so
    the [no news] sentinel, when that is the digest, is part of the
    prompt. *)
Theorem X15_title_prompt_carries_topic_and_digest
        (req : TopicRequest) (s s1 : state World) (news : str) :
  truthy (strip (topic req)) = true ->
  fetch (strip (topic req)) s = (Ok news, s1) ->
  let t := strip (topic req) in
  (exists later,
      calls (snd (handle req s))
      = calls s1 ++ GenerationCall (title_args t news) :: later)
  /\ contains (title_prompt t news) t = true
  /\ contains (title_prompt t news) news = true.
Proof.
  intros Hvalid Hnews t. split; [|split].
  - rewrite (generate_post_valid _ _ _ _ req s Hvalid). fold t.
    destruct (generate_shape t news s s1 Hnews)
      as (res & w & title & n & E & _ & Hn & _).
    rewrite E. simpl snd. simpl calls.
    destruct n as [|n]; [lia|]. simpl. eauto.
  - unfold title_prompt. apply contains_app.
  - unfold title_prompt.
    rewrite (app_assoc _ t), (app_assoc _ (lit "', с учётом актуальных новостей:")),
      (app_assoc _ nl).
    apply contains_app.
Qed.


End HandlerRuns.

(* ================================================================== *)
(** ** Further facts: start-up *)
(* ================================================================== *)

(** X16. The service starts exactly when both [OPENAI_API_KEY] and
    [CURRENTS_API_KEY] are set to non-empty values, and then works with
    those values; a variable that is set but empty stops it like a missing
    one, with the same error. *)
Theorem X16_startup_requires_both_keys (environ : list (str * str)) :
  ((exists keys, load_api_keys environ = Ok keys)
   <-> (exists a b,
           getenv environ (lit "OPENAI_API_KEY") = Some a /\ a <> []
           /\ getenv environ (lit "CURRENTS_API_KEY") = Some b /\ b <> []))
  /\ (forall keys,
         load_api_keys environ = Ok keys ->
         keys = (getenv environ (lit "OPENAI_API_KEY"),
                 getenv environ (lit "CURRENTS_API_KEY")))
  /\ (forall e,
         load_api_keys environ = Raised e ->
         e = OtherException missing_keys_message).
Proof.
  unfold load_api_keys.
  destruct (getenv environ (lit "OPENAI_API_KEY")) as [[|c a]|];
    destruct (getenv environ (lit "CURRENTS_API_KEY")) as [[|d b]|];
    simpl;
    (split; [split|split];
    [ first [ intros [keys H]; discriminate H
            | intros _; do 2 eexists; repeat split; discriminate ]
    | first [ intros _; eexists; reflexivity
            | intros (x & y & H1 & H2 & H3 & H4);
              inversion H1; inversion H3; congruence ]
    | intros keys H; first [discriminate H | inversion H; reflexivity]
    | intros e H; first [discriminate H | inversion H; reflexivity] ]).
Qed.

(* ================================================================== *)
(** ** Further concrete runs *)
(* ================================================================== *)

(** A payload with ["news": null]. *)
Lemma X3_falsy_news_is_no_news_witness :
  get_recent_news nat
    (Sample.get_returning
       (Sample.response 200 "OK" (JDict [(lit "news", JNull)])))
    Sample.key (lit "ai") Sample.start
  = (Ok no_news, Sample.fetched).
Proof.
  exact (X3_falsy_news_is_no_news nat _ Sample.key (lit "ai") Sample.start
           (Sample.response 200 "OK" (JDict [(lit "news", JNull)])) 1%nat
           [(lit "news", JNull)] JNull
           eq_refl eq_refl eq_refl eq_refl eq_refl).
Defined.

(** A payload that is a list. *)
Lemma X4_payload_not_an_object_witness :
  Sample.run (Sample.get_returning (Sample.response 200 "OK" (JList [])))
    (Sample.create_replying "Title" "Meta" "Body")
  = (Raised (OtherException (lit "'list' object has no attribute 'get'")),
     Sample.fetched).
Proof.
  destruct (X4_payload_not_an_object nat
              (Sample.get_returning (Sample.response 200 "OK" (JList [])))
              (Sample.create_replying "Title" "Meta" "Body") Sample.key
              Sample.request Sample.start
              (Sample.response 200 "OK" (JList [])) 1%nat (JList []))
    as (E & _);
    [by_evaluation | reflexivity | reflexivity | reflexivity
     | discriminate |].
  unfold Sample.run. rewrite E. by_evaluation.
Defined.

(** Seven items, the first five well formed. *)
Lemma X5_fetch_succeeds_iff_well_formed_witness :
  (exists digest,
      fst (get_recent_news nat Sample.good_get Sample.key (lit "ai")
             Sample.start) = Ok digest)
  <-> forallb article_ok (firstn 5 Sample.seven_articles) = true.
Proof.
  exact (X5_fetch_succeeds_iff_well_formed nat Sample.good_get Sample.key
           (lit "ai") Sample.start
           (Sample.response 200 "OK" (Sample.payload Sample.seven_articles))
           1%nat
           [ (lit "status", JStr (lit "ok"))
           ; (lit "news", JList Sample.seven_articles) ]
           Sample.seven_articles
           eq_refl eq_refl eq_refl eq_refl
           (fun H => eq_ind [] (fun l => match l with [] => True | _ :: _ => False end)
                       I _ (eq_sym H))).
Defined.

(** The title call raises. *)
Lemma X6_title_failure_stops_witness :
  Sample.run Sample.good_get (Sample.create_failing_at 20 "boom")
  = (Raised (HTTPException 500 (failure_detail (OpenAIError (lit "boom")))),
     mkState 2%nat
       (calls Sample.fetched
          ++ [GenerationCall
                (title_args (strip (topic Sample.request)) Sample.digest)])).
Proof.
  destruct (X6_title_failure_stops nat Sample.good_get
              (Sample.create_failing_at 20 "boom") Sample.key
              Sample.request Sample.start Sample.fetched Sample.digest
              (OpenAI.RaisesOpenAIError (lit "boom")) 2%nat
              (OpenAIError (lit "boom")))
    as (E & _); [by_evaluation .. |].
  exact E.
Defined.

(** The body call raises. *)
Lemma X7_body_failure_discards_post_witness :
  fst (Sample.run Sample.good_get (Sample.create_failing_at 1000 "boom"))
  = Raised (HTTPException 500 (failure_detail (OpenAIError (lit "boom")))).
Proof.
  destruct (X7_body_failure_discards_post nat Sample.good_get
              (Sample.create_failing_at 1000 "boom") Sample.key
              Sample.request Sample.start Sample.fetched Sample.digest
              (lit "Text") (lit "Text") [] [] 2%nat 3%nat 4%nat
              (OpenAI.RaisesOpenAIError (lit "boom"))
              (OpenAIError (lit "boom")))
    as (E & _); [by_evaluation .. |].
  unfold Sample.run. now rewrite E.
Defined.

(** A title reply without choices. *)
Lemma X8_unreadable_reply_detail_witness :
  fst (Sample.run Sample.good_get Sample.create_without_choices)
  = Raised (HTTPException 500
              (content_error_prefix
               ++ str_exn (OtherException (lit "list index out of range")))).
Proof.
  destruct (X8_unreadable_reply_detail nat Sample.good_get
              Sample.create_without_choices Sample.key
              Sample.request Sample.start Sample.fetched Sample.digest
              (OpenAI.mkCompletion []) 2%nat
              (OtherException (lit "list index out of range")))
    as (E & _); [by_evaluation .. |].
  exact E.
Defined.

(** The post of a complete run. *)
Lemma X9_returned_post_is_complete_witness :
  let answer :=
    Sample.run Sample.good_get
      (Sample.create_replying " Title " "Meta" "Body") in
  exists news title,
    dict_get (lit "title")
      [ (lit "title", lit "Title")
      ; (lit "meta_description", lit "Meta")
      ; (lit "post_content", lit "Body") ] = Some title
    /\ calls (snd answer)
       = calls Sample.start
           ++ NewsCall (news_args Sample.key (strip (topic Sample.request)))
           :: map GenerationCall
                [ title_args (strip (topic Sample.request)) news
                ; meta_args title
                ; content_args (strip (topic Sample.request)) news ].
Proof.
  intros answer.
  destruct (X9_returned_post_is_complete nat Sample.good_get
              (Sample.create_replying " Title " "Meta" "Body") Sample.key
              Sample.request Sample.start
              [ (lit "title", lit "Title")
              ; (lit "meta_description", lit "Meta")
              ; (lit "post_content", lit "Body") ])
    as (_ & _ & _ & H); [by_evaluation|].
  exact H.
Defined.

(** A news call that times out. *)
Lemma X13_bad_gateway_only_from_news_witness :
  exists cause w,
    Sample.run (Sample.get_raising "timed out")
      (Sample.create_replying "Title" "Meta" "Body")
    = (Raised (HTTPException 502 (news_error_prefix ++ cause)),
       mkState w
         (calls Sample.start
            ++ [NewsCall (news_args Sample.key (strip (topic Sample.request)))])).
Proof.
  apply (X13_bad_gateway_only_from_news nat (Sample.get_raising "timed out")
           (Sample.create_replying "Title" "Meta" "Body") Sample.key
           Sample.request Sample.start).
  by_evaluation.
Defined.

(** The title call of a complete run. *)
Lemma X14_generation_call_settings_witness :
  let a := title_args (lit "ai") Sample.digest in
  In a (generation_calls (calls Sample.start))
  \/ (OpenAI.model a = lit "gpt-4o-mini"
      /\ (exists text, OpenAI.messages a = [user_message text])
      /\ (OpenAI.temperature a == 1)%Q).
Proof.
  intros a.
  apply (X14_generation_call_settings nat Sample.good_get
           (Sample.create_replying " Title " "Meta" "Body") Sample.key
           Sample.request Sample.start a).
  vm_compute. left. reflexivity.
Defined.

(** An empty news list: the sentinel is part of the title prompt. *)
Lemma X15_title_prompt_carries_topic_and_digest_witness :
  contains (title_prompt (strip (topic Sample.request)) no_news) no_news
  = true.
Proof.
  destruct (X15_title_prompt_carries_topic_and_digest nat
              (Sample.get_returning
                 (Sample.response 200 "OK" (Sample.payload [])))
              (Sample.create_replying "Title" "Meta" "Body") Sample.key
              Sample.request Sample.start Sample.fetched no_news)
    as (_ & _ & H); [by_evaluation .. |].
  exact H.
Defined.

